(** * Availability engine of the salon management system

    A shallow embedding of [timeSlotUtils] (SalonManagementSystem.tsx) and of
    the records it reads (types.ts), followed by the properties of the
    engine: clock-time conversion, interval overlap, the conflict check and
    the enumeration of offerable start times.

    Conventions of the embedding.
    - A JavaScript [number] is [NaN] or an exact integer [Int z]; the engine
      only ever adds, multiplies, divides by 60 and compares whole minutes
      and milliseconds, which IEEE doubles carry out exactly on the safe
      integers.  Module [Double] writes the rounding out for the minute
      counts beyond them.
    - Strings are [string]; arrays are lists; the [StaffAvailability] index
      signature is a finite map from day names to day records.
    - A [Date] is its time value: milliseconds since the epoch, or [NaN] for
      an invalid date.  The host's time zone is a parameter of the model:
      the offset from UTC in force on 2000-01-01, the one day the slot loop
      works on, and for the end time of a booking, computed on the current
      day, the offset as a function of the instant.  The way the host names
      the weekday of a calendar date is a parameter too. *)

From Stdlib Require Import ZArith String Ascii List Lia Bool Sorted Permutation.
From stdpp Require Import base gmap strings list.

Open Scope Z_scope.

(** ** The fragment of the JavaScript runtime the engine relies on *)

Module JS.

(** [number]: the integers, and NaN. *)
Inductive number : Type :=
| NaN : number
| Int : Z -> number.

Definition add (x y : number) : number :=
  match x, y with
  | Int a, Int b => Int (a + b)
  | _, _ => NaN
  end.

Definition mul (x y : number) : number :=
  match x, y with
  | Int a, Int b => Int (a * b)
  | _, _ => NaN
  end.

(** [x < y] and [x <= y]: every comparison with NaN is false. *)
Definition lt (x y : number) : bool :=
  match x, y with
  | Int a, Int b => a <? b
  | _, _ => false
  end.

Definition le (x y : number) : bool :=
  match x, y with
  | Int a, Int b => a <=? b
  | _, _ => false
  end.

(** [Math.floor(x / 60)] and [x % 60] on integers: the quotient is rounded
    towards minus infinity, the remainder takes the sign of the dividend. *)
Definition floorDiv60 (x : number) : number :=
  match x with
  | Int a => Int (a / 60)
  | NaN => NaN
  end.

Definition rem60 (x : number) : number :=
  match x with
  | Int a => Int (Z.rem a 60)
  | NaN => NaN
  end.

Definition isDigit (c : ascii) : bool :=
  let n := nat_of_ascii c in (48 <=? n)%nat && (n <=? 57)%nat.

Definition digitValue (c : ascii) : Z := Z.of_nat (nat_of_ascii c) - 48.

Definition digitChar (d : Z) : ascii := ascii_of_nat (Z.to_nat (48 + d)).

(** Decimal digits of a non-negative integer, most significant first.  The
    fuel bounds the number of digits. *)
Fixpoint digitsOf (fuel : nat) (n : Z) : string :=
  match fuel with
  | O => EmptyString
  | S fuel' =>
      (if n <? 10 then EmptyString else digitsOf fuel' (n / 10))
        +:+ String (digitChar (n mod 10)) EmptyString
  end.

(** [Number.prototype.toString()] for NaN and for integers. *)
Definition toString (x : number) : string :=
  match x with
  | NaN => "NaN"
  | Int z =>
      let a := Z.abs z in
      let ds := digitsOf (S (Z.to_nat (Z.log2 a))) a in
      if z <? 0 then String "-" ds else ds
  end.

(** [s.padStart(2, '0')]. *)
Definition padStart2 (s : string) : string :=
  match String.length s with
  | 0%nat => "00"
  | 1%nat => String "0" s
  | _ => s
  end.

(** Value of a run of decimal digits, [None] when another character occurs. *)
Fixpoint parseDigits (s : string) (acc : Z) : option Z :=
  match s with
  | EmptyString => Some acc
  | String c rest =>
      if isDigit c then parseDigits rest (10 * acc + digitValue c) else None
  end.

Definition unsignedNumber (s : string) : number :=
  match s with
  | EmptyString => NaN
  | _ => match parseDigits s 0 with Some v => Int v | None => NaN end
  end.

(** [Number(s)] on the strings the engine meets: the empty string is 0, an
    optionally signed run of decimal digits is its value.  Every other
    string is mapped to NaN; that is what JavaScript does with text that is
    not a numeral, and the embedding does not cover the remaining numerals
    (fractions, exponents, radix prefixes, surrounding white space). *)
Definition Number (s : string) : number :=
  match s with
  | EmptyString => Int 0
  | String "-" rest => mul (Int (-1)) (unsignedNumber rest)
  | String "+" rest => unsignedNumber rest
  | _ => unsignedNumber s
  end.

(** [s.split(sep)] for a one-character separator. *)
Fixpoint split (sep : ascii) (s : string) : list string :=
  match s with
  | EmptyString => [EmptyString]
  | String c rest =>
      if Ascii.eqb c sep then EmptyString :: split sep rest
      else match split sep rest with
           | cur :: more => String c cur :: more
           | [] => [String c EmptyString]
           end
  end.

(** Truthiness of an optional string: [undefined] and the empty string are
    falsy.  [orElse a b] is [a || b]. *)
Definition truthy (s : option string) : bool :=
  match s with
  | None => false
  | Some EmptyString => false
  | Some _ => true
  end.

Definition orElse (s : option string) (fallback : string) : string :=
  match s with
  | Some v => if truthy s then v else fallback
  | None => fallback
  end.

End JS.

Import JS.

(** ** Dates, as far as the slot loop uses them *)

Module JSDate.

Definition msPerMinute : Z := 60000.

(** Time value of 2000-01-01T00:00:00Z. *)
Definition utc2000 : Z := 946684800000.

(** [TimeClip]: a time value further than 8.64e15 ms from the epoch makes
    an invalid date. *)
Definition TimeClip (v : Z) : number :=
  if Z.abs v <=? 8640000000000000 then Int v else NaN.

(** The two fields of a clock time written as two digits, a colon and two
    digits. *)
Definition clockFields (t : string) : option (Z * Z) :=
  match t with
  | String h1 (String h2 (String ":" (String m1 (String m2 EmptyString)))) =>
      if isDigit h1 && isDigit h2 && isDigit m1 && isDigit m2
      then Some (10 * digitValue h1 + digitValue h2,
                 10 * digitValue m1 + digitValue m2)
      else None
  | _ => None
  end.

Section Host.

(** [getTimezoneOffset()]: minutes to add to local time to reach UTC. *)
Variable timezoneOffset : Z.

(** [new Date(`2000-01-01T${t}:00`)], a date-time without zone designator,
    read as local time.  Hours run to 23 and minutes to 59, with 24:00 for
    the end of the day; anything else in this shape is an invalid date.  A
    string of another shape is outside the date-time format and is taken as
    invalid too. *)
Definition localTimeOn2000 (t : string) : number :=
  match clockFields t with
  | Some (h, m) =>
      if ((h <=? 23) && (m <=? 59)) || ((h =? 24) && (m =? 0))
      then TimeClip (utc2000 + (timezoneOffset + h * 60 + m) * msPerMinute)
      else NaN
  | None => NaN
  end.

(** [time.toTimeString().slice(0, 5)] for a valid date: hours and minutes of
    the local time of day, two digits each. *)
Definition toTimeString5 (timeValue : Z) : string :=
  let localMinutes := (timeValue - timezoneOffset * msPerMinute) / msPerMinute in
  let minuteOfDay := localMinutes mod 1440 in
  padStart2 (toString (Int (minuteOfDay / 60))) +:+ ":"
    +:+ padStart2 (toString (Int (minuteOfDay mod 60))).

End Host.

End JSDate.

Import JSDate.

(** ** Records read by the engine (types.ts) *)

Inductive AppointmentStatus : Type :=
| confirmed
| completed
| cancelled
| no_show.

Definition AppointmentStatus_eqb (a b : AppointmentStatus) : bool :=
  match a, b with
  | confirmed, confirmed | completed, completed
  | cancelled, cancelled | no_show, no_show => true
  | _, _ => false
  end.

(** [endTime] is declared a string, but the engine guards against a missing
    one, so the field is optional here. *)
Module Appointment.
Record t : Type := make {
  id : string;
  staffId : string;
  date : string;
  time : string;
  endTime : option string;
  status : AppointmentStatus
}.
End Appointment.

(** One entry of [StaffAvailability]; the field [end] is spelled [end_]. *)
Module DayAvailability.
Record t : Type := make {
  start : string;
  end_ : string;
  available : bool
}.
End DayAvailability.

Module StaffMember.
Record t : Type := make {
  id : string;
  name : string;
  availability : gmap string DayAvailability.t
}.
End StaffMember.

Module Service.
Record t : Type := make {
  id : string;
  duration : Z
}.
End Service.

(** ** timeSlotUtils *)

Module timeSlotUtils.

(** [const [hours, minutes] = timeString.split(':').map(Number);
     return hours * 60 + minutes;]
    A missing second component is [undefined], and the sum is NaN. *)
Definition timeToMinutes (timeString : string) : number :=
  match map Number (split ":" timeString) with
  | hours :: minutes :: _ => add (mul hours (Int 60)) minutes
  | _ => NaN
  end.

Definition minutesToTime (minutes : number) : string :=
  let hours := floorDiv60 minutes in
  let mins := rem60 minutes in
  padStart2 (toString hours) +:+ ":" +:+ padStart2 (toString mins).

Definition doTimeRangesOverlap (start1 end1 start2 end2 : string) : bool :=
  let start1Min := timeToMinutes start1 in
  let end1Min := timeToMinutes end1 in
  let start2Min := timeToMinutes start2 in
  let end2Min := timeToMinutes end2 in
  lt start1Min end2Min && lt start2Min end1Min.

Definition getAppointmentEndTime (startTime : string) (durationMinutes : Z)
  : string :=
  let startMinutes := timeToMinutes startTime in
  let endMinutes := add startMinutes (Int durationMinutes) in
  minutesToTime endMinutes.

(** [appointment.endTime || getAppointmentEndTime(appointment.time, 60)] *)
Definition appointmentEndTime (appointment : Appointment.t) : string :=
  orElse (Appointment.endTime appointment)
    (getAppointmentEndTime (Appointment.time appointment) 60).

(** The guard of the loop body: same staff member, same date, not cancelled. *)
Definition concerns (staffId date : string) (appointment : Appointment.t)
  : bool :=
  String.eqb (Appointment.staffId appointment) staffId
  && String.eqb (Appointment.date appointment) date
  && negb (AppointmentStatus_eqb (Appointment.status appointment) cancelled).

(** The [for ... of] loop with its early [return false]. *)
Fixpoint scanAppointments (proposedStartTime proposedEndTime : string)
  (staffId date : string) (existingAppointments : list Appointment.t) : bool :=
  match existingAppointments with
  | [] => true
  | appointment :: others =>
      if concerns staffId date appointment
         && doTimeRangesOverlap proposedStartTime proposedEndTime
              (Appointment.time appointment) (appointmentEndTime appointment)
      then false
      else scanAppointments proposedStartTime proposedEndTime
             staffId date others
  end.

Definition isTimeSlotAvailable (proposedStartTime : string)
  (serviceDuration : Z) (existingAppointments : list Appointment.t)
  (staffId date : string) : bool :=
  let proposedEndTime :=
    getAppointmentEndTime proposedStartTime serviceDuration in
  scanAppointments proposedStartTime proposedEndTime staffId date
    existingAppointments.

Section Host.

(** The host environment: its time zone offset, and the lower-cased weekday
    name it gives a calendar date,
    [new Date(date).toLocaleDateString("en-US", { weekday: "long" })
       .toLowerCase()]. *)
Variable timezoneOffset : Z.
Variable weekdayOf : string -> string.

(** [time.setMinutes(time.getMinutes() + 30)] moves the date 30 minutes on. *)
Definition slotStep : Z := 30 * msPerMinute.

(** The [for] loop over candidate start times.  [time] and [end_] are the
    time values of two valid dates.  One unit of fuel is spent per
    iteration. *)
Fixpoint slotLoop (fuel : nat) (time end_ : Z) (serviceDuration : Z)
  (existingAppointments : list Appointment.t) (staffId date : string)
  : list string :=
  match fuel with
  | O => []
  | S fuel' =>
      if time <? end_ then
        let timeString := toTimeString5 timezoneOffset time in
        let serviceEndTime :=
          TimeClip (time + serviceDuration * msPerMinute) in
        let later :=
          slotLoop fuel' (time + slotStep) end_ serviceDuration
            existingAppointments staffId date in
        if le serviceEndTime (Int end_)
           && isTimeSlotAvailable timeString serviceDuration
                existingAppointments staffId date
        then timeString :: later
        else later
      else []
  end.

(** Iterations the loop can make between [start] and [end_]. *)
Definition slotFuel (start end_ : Z) : nat :=
  Z.to_nat ((end_ - start) / slotStep + 1).

Definition generateAvailableTimeSlots (date : string)
  (staffMember : StaffMember.t) (service : Service.t)
  (existingAppointments : list Appointment.t) : list string :=
  let dayName := weekdayOf date in
  match StaffMember.availability staffMember !! dayName with
  | None => []
  | Some availability =>
      if negb (DayAvailability.available availability) then []
      else
        let startTime := DayAvailability.start availability in
        let endTime := DayAvailability.end_ availability in
        let serviceDuration := Service.duration service in
        match localTimeOn2000 timezoneOffset startTime,
              localTimeOn2000 timezoneOffset endTime with
        | Int start, Int end_ =>
            slotLoop (slotFuel start end_) start end_ serviceDuration
              existingAppointments (StaffMember.id staffMember) date
        | _, _ => []
        end
  end.

End Host.

End timeSlotUtils.

Import timeSlotUtils.

(** ** Vocabulary of the properties *)

(** A clock time of the shape HH:MM. *)
Definition isClockTime (t : string) : bool :=
  match clockFields t with Some _ => true | None => false end.

(** The minute count [timeToMinutes] gives a string, as an integer. *)
Definition clockMinutes (t : string) : Z :=
  match timeToMinutes t with Int z => z | NaN => 0 end.

(** The text before the first colon and the text after it, as numbers. *)
Definition hourComponent (t : string) : number :=
  match split ":" t with
  | h :: _ => Number h
  | [] => NaN
  end.



Fixpoint allDigits (s : string) : bool :=
  match s with
  | EmptyString => true
  | String c rest => isDigit c && allDigits rest
  end.


(** Two half-open ranges of minutes overlap. *)
Definition rangesOverlap (start1 end1 start2 end2 : Z) : Prop :=
  start1 < end2 /\ start2 < end1.

(** End of an appointment in minutes: its [endTime] when present, otherwise
    an hour after its start. *)
Definition effectiveEnd (a : Appointment.t) : Z :=
  match Appointment.endTime a with
  | Some e => clockMinutes e
  | None => clockMinutes (Appointment.time a) + 60
  end.

(** An appointment that blocks the proposed range for this staff member on
    this date. *)
Definition conflictsWith (proposedStart : string) (serviceDuration : Z)
  (staffId date : string) (a : Appointment.t) : Prop :=
  Appointment.staffId a = staffId
  /\ Appointment.date a = date
  /\ Appointment.status a <> cancelled
  /\ rangesOverlap (clockMinutes proposedStart)
       (clockMinutes proposedStart + serviceDuration)
       (clockMinutes (Appointment.time a)) (effectiveEnd a).

Definition wellFormedAppointment (a : Appointment.t) : Prop :=
  isClockTime (Appointment.time a) = true
  /\ forall e, Appointment.endTime a = Some e -> isClockTime e = true.

Definition notCancelled (a : Appointment.t) : bool :=
  negb (AppointmentStatus_eqb (Appointment.status a) cancelled).

Definition withEndTime (e : option string) (a : Appointment.t)
  : Appointment.t :=
  Appointment.make (Appointment.id a) (Appointment.staffId a)
    (Appointment.date a) (Appointment.time a) e (Appointment.status a).


(** ** A sample host and sample records

    A host whose local zone is UTC: the weekday of an ISO calendar date is
    the weekday of its midnight in UTC. *)

Module SampleHost.

(** Days from 1970-01-01 to the given date of the Gregorian calendar. *)
Definition daysFromCivil (y m d : Z) : Z :=
  let y' := if m <=? 2 then y - 1 else y in
  let era := y' / 400 in
  let yoe := y' - era * 400 in
  let mp := (m + 9) mod 12 in
  let doy := (153 * mp + 2) / 5 + d - 1 in
  let doe := yoe * 365 + yoe / 4 - yoe / 100 + doy in
  era * 146097 + doe - 719468.

Definition weekdayNames : list string :=
  ["sunday"; "monday"; "tuesday"; "wednesday"; "thursday"; "friday";
   "saturday"].

Definition digitsValue (s : string) : option Z :=
  match s with
  | EmptyString => None
  | _ => parseDigits s 0
  end.

Definition weekdayOf (date : string) : string :=
  match split "-" date with
  | [ys; ms; ds] =>
      match digitsValue ys, digitsValue ms, digitsValue ds with
      | Some y, Some m, Some d =>
          if (1 <=? m) && (m <=? 12) && (1 <=? d) && (d <=? 31) then
            nth (Z.to_nat ((daysFromCivil y m d + 4) mod 7)) weekdayNames
              "invalid date"
          else "invalid date"
      | _, _, _ => "invalid date"
      end
  | _ => "invalid date"
  end.

Definition timezoneOffset : Z := 0.

Definition slots := generateAvailableTimeSlots timezoneOffset weekdayOf.

Definition nineToFive : DayAvailability.t :=
  DayAvailability.make "09:00" "17:00" true.

Definition quarterPastNine : DayAvailability.t :=
  DayAvailability.make "09:15" "17:00" true.

Definition closedDay : DayAvailability.t :=
  DayAvailability.make "09:00" "17:00" false.

Definition stylist (monday : DayAvailability.t) : StaffMember.t :=
  StaffMember.make "staff-1" "Riley"
    (<["monday" := monday]> (<["sunday" := closedDay]> ∅)).

Definition haircut (minutes : Z) : Service.t :=
  Service.make "service-1" minutes.

Definition booking (time : string) (endTime : option string)
  (status : AppointmentStatus) : Appointment.t :=
  Appointment.make "appointment-1" "staff-1" "2025-07-14" time endTime status.

End SampleHost.

(** ** The booking flow around the engine *)

(** *** supabaseHelpers.js *)

Module supabaseHelpers.

Definition msPerHour : Z := 3600000.

Definition msPerDay : Z := 86400000.

(** The status column holds "scheduled" where the interface says
    "confirmed"; every other status is stored as it is. *)
Definition statusToDb (status : string) : string :=
  if String.eqb status "confirmed" then "scheduled" else status.

Definition statusFromDb (status : string) : string :=
  if String.eqb status "scheduled" then "confirmed" else status.

Section Host.

(** The host's time zone: [tza t] is the number of milliseconds to add to
    the time value [t] to read local time at that moment, and
    [tzaLocal l] the number in force at the local time [l] (the one before
    the change, where a clock change makes [l] ambiguous or skips it).
    Both follow the zone's daylight-saving rules. *)
Variable tza : Z -> Z.
Variable tzaLocal : Z -> Z.

(** Time value of [new Date()], the moment of the call. *)
Variable now : Z.

(** [startDate.setHours(hours, minutes, 0, 0)] on [startDate = new Date()]:
    the local calendar day of [now] with the given time, which may run over
    into other days; NaN when a component is NaN. *)
Definition setHoursToday (hours minutes : number) : number :=
  match hours, minutes with
  | Int h, Int m =>
      let localDay := (now + tza now) / msPerDay in
      let date := localDay * msPerDay + (h * msPerHour + m * msPerMinute) in
      TimeClip (date - tzaLocal date)
  | _, _ => NaN
  end.

(** [endDate.toTimeString().slice(0, 5)] for a valid date: hours and minutes
    of the local time of day at that moment. *)
Definition timeString5 (timeValue : Z) : string :=
  let localMinutes := (timeValue + tza timeValue) / msPerMinute in
  let minuteOfDay := localMinutes mod 1440 in
  padStart2 (toString (Int (minuteOfDay / 60))) +:+ ":"
    +:+ padStart2 (toString (Int (minuteOfDay mod 60))).

(** [calculateEndTime]: the end time stored with an appointment.  A missing
    component of the start time is [undefined], which [setHours] takes for
    NaN; the first five characters of the time string of an invalid date
    are "Inval". *)
Definition calculateEndTime (startTime : string) (durationMinutes : Z)
  : string :=
  let parts := map Number (split ":" startTime) in
  let hours := List.nth 0 parts NaN in
  let minutes := List.nth 1 parts NaN in
  match setHoursToday hours minutes with
  | Int startValue =>
      match TimeClip (startValue + durationMinutes * 60000) with
      | Int endValue => timeString5 endValue
      | NaN => "Inval"
      end
  | NaN => "Inval"
  end.

End Host.

End supabaseHelpers.

(** *** transformDatabaseToUI and the state operations
        (SalonManagementSystem.tsx) *)

Module transformDatabaseToUI.

(** [endTime: dbAppointment.endTime || dbAppointment.time]; the other fields
    are copied. *)
Definition appointment (dbAppointment : Appointment.t) : Appointment.t :=
  Appointment.make (Appointment.id dbAppointment)
    (Appointment.staffId dbAppointment) (Appointment.date dbAppointment)
    (Appointment.time dbAppointment)
    (Some (orElse (Appointment.endTime dbAppointment)
             (Appointment.time dbAppointment)))
    (Appointment.status dbAppointment).

End transformDatabaseToUI.

(** A [Partial<Appointment>]: [None] is a property the object does not
    have. *)
Module AppointmentUpdates.
Record t : Type := make {
  date : option string;
  time : option string;
  endTime : option (option string);
  status : option AppointmentStatus
}.
End AppointmentUpdates.

Module operations.

(** [{ ...apt, ...updates }] *)
Definition mergeUpdates (apt : Appointment.t) (updates : AppointmentUpdates.t)
  : Appointment.t :=
  Appointment.make (Appointment.id apt) (Appointment.staffId apt)
    (default (Appointment.date apt) (AppointmentUpdates.date updates))
    (default (Appointment.time apt) (AppointmentUpdates.time updates))
    (default (Appointment.endTime apt) (AppointmentUpdates.endTime updates))
    (default (Appointment.status apt) (AppointmentUpdates.status updates)).

(** The state update of [updateAppointment]:
    [prev.map((apt) => (apt.id === id ? { ...apt, ...updates } : apt))]. *)
Definition updateAppointment (id : string) (updates : AppointmentUpdates.t)
  (prev : list Appointment.t) : list Appointment.t :=
  map (fun apt =>
         if String.eqb (Appointment.id apt) id then mergeUpdates apt updates
         else apt) prev.

(** The state update of [createAppointment]: [[...prev, newAppointment]]. *)
Definition createAppointment (newAppointment : Appointment.t)
  (prev : list Appointment.t) : list Appointment.t :=
  prev ++ [newAppointment].

End operations.

Module handlers.

(** The updates [handleEditAppointment] sends: date, time and notes. *)
Definition editUpdates (date time : string) : AppointmentUpdates.t :=
  AppointmentUpdates.make (Some date) (Some time) None None.

(** The updates [handleCancelAppointment] sends: [{ status: "cancelled" }]. *)
Definition cancelUpdates : AppointmentUpdates.t :=
  AppointmentUpdates.make None None None (Some cancelled).

(** [services.find(s => s.id === serviceId)?.duration || 60] *)
Definition durationOr60 (services : list Service.t) (serviceId : string) : Z :=
  match List.find (fun s => String.eqb (Service.id s) serviceId) services with
  | Some s => if Service.duration s =? 0 then 60 else Service.duration s
  | None => 60
  end.

(** [appointments.filter(apt => apt.id !== editingAppointment.id)] *)
Definition excluding (editingAppointment : Appointment.t)
  (appointments : list Appointment.t) : list Appointment.t :=
  List.filter
    (fun apt => negb (String.eqb (Appointment.id apt)
                        (Appointment.id editingAppointment)))
    appointments.

(** The availability test of [handleEditAppointment]; [serviceId] is the
    service of the appointment being edited. *)
Definition editIsAvailable (formDate formTime : string)
  (editingAppointment : Appointment.t) (serviceId : string)
  (services : list Service.t) (appointments : list Appointment.t) : bool :=
  isTimeSlotAvailable formTime (durationOr60 services serviceId)
    (excluding editingAppointment appointments)
    (Appointment.staffId editingAppointment) formDate.

(** [todayAppointments] of [dashboardMetrics]; [today] is the ISO date of
    [new Date()]. *)
Definition todayAppointments (today : string)
  (appointments : list Appointment.t) : nat :=
  length (List.filter (fun apt => String.eqb (Appointment.date apt) today)
            appointments).

End handlers.

(** *** Vocabulary of the booking properties *)

(** The appointment counts for this staff member on this date: the guard of
    the conflict check. *)
Definition blocksFor (staffId date : string) (a : Appointment.t) : Prop :=
  Appointment.staffId a = staffId
  /\ Appointment.date a = date
  /\ Appointment.status a <> cancelled.

(** No two appointments of the list that count for the same staff member and
    date overlap. *)
Definition noDoubleBooking (l : list Appointment.t) : Prop :=
  forall (i j : nat) (a b : Appointment.t),
    i <> j -> List.nth_error l i = Some a -> List.nth_error l j = Some b ->
    Appointment.status a <> cancelled ->
    blocksFor (Appointment.staffId a) (Appointment.date a) b ->
    ~ rangesOverlap (clockMinutes (Appointment.time a)) (effectiveEnd a)
        (clockMinutes (Appointment.time b)) (effectiveEnd b).

(** The appointment is for this staff member on this date, whatever its
    status. *)
Definition sameStaffAndDate (staffId date : string) (a : Appointment.t)
  : bool :=
  String.eqb (Appointment.staffId a) staffId
  && String.eqb (Appointment.date a) date.

(** The start times in strictly ascending order. *)
Definition ascending (slots : list string) : Prop :=
  StronglySorted (fun a b => clockMinutes a < clockMinutes b) slots.

(** A time of day as a date-time accepts it: up to 23:59, or 24:00. *)
Definition isTimeOfDay (t : string) : bool :=
  match clockFields t with
  | Some (h, m) => ((h <=? 23) && (m <=? 59)) || ((h =? 24) && (m =? 0))
  | None => false
  end.

(** The string has no colon. *)
Fixpoint noColon (s : string) : bool :=
  match s with
  | EmptyString => true
  | String c rest => negb (Ascii.eqb c ":") && noColon rest
  end.

(** The host's clock does not change during the appointment: the call is
    made between 1970 and 2100, the zone is within a day of UTC, and the
    offset in force at the start of the appointment, on the local day of
    the call, is still the one in force at its end. *)
Definition steadyHost (tza tzaLocal : Z -> Z) (now startMinute duration : Z)
  : Prop :=
  let startLocal :=
    (now + tza now) / supabaseHelpers.msPerDay * supabaseHelpers.msPerDay
    + startMinute * msPerMinute in
  let offset := tzaLocal startLocal in
  0 <= now <= 4102444800000
  /\ -86400000 <= tza now <= 86400000
  /\ -86400000 <= offset <= 86400000
  /\ tza (startLocal - offset + duration * msPerMinute) = offset.

Module SampleBooking.

Definition now : Z := 1752487200000.

(** A host on UTC all year. *)
Definition tza (t : Z) : Z := 0.

Definition endOf (startTime : string) (durationMinutes : Z) : string :=
  supabaseHelpers.calculateEndTime tza tza now startTime durationMinutes.

Definition booked (id startTime : string) (durationMinutes : Z)
  : Appointment.t :=
  Appointment.make id "staff-1" "2025-07-14" startTime
    (Some (endOf startTime durationMinutes)) confirmed.

Definition services : list Service.t :=
  [Service.make "cut" 60; Service.make "trim" 0].

End SampleBooking.

(** A host whose clock moves forward by an hour: six hours behind UTC
    until 2025-03-09T08:00:00Z and five hours behind from then on, as US
    Central time in 2025.  Local times before 03:00 on that day, the skipped
    hour included, are read with the earlier offset.  The call is made at
    00:30 local time on that day. *)
Module SampleClockChange.

Definition now : Z := 1741501800000.

Definition tza (t : Z) : Z :=
  if t <? 1741507200000 then -21600000 else -18000000.

Definition tzaLocal (l : Z) : Z :=
  if l <? 1741489200000 then -21600000 else -18000000.

Definition endOf (startTime : string) (durationMinutes : Z) : string :=
  supabaseHelpers.calculateEndTime tza tzaLocal now startTime durationMinutes.

End SampleClockChange.

(** ** The conversions with double-precision rounding written out

    [timeSlotUtils] above computes on exact integers, which is what doubles
    do as long as every intermediate value is a safe integer.  The module
    below repeats [timeToMinutes], [minutesToTime] and
    [getAppointmentEndTime] with each rounding of IEEE-754 binary64
    arithmetic (round to nearest, ties to even) made explicit, for the
    minute counts beyond that range.  A result is [None] where the value
    leaves the fragment described at each definition. *)

Module Double.

Definition maxSafeInteger : Z := 2 ^ 53 - 1.

(** The integer nearest to [a / b], for [0 < b]; of two equally near
    integers, the even one. *)
Definition nearestEven (a b : Z) : Z :=
  let q := a / b in
  let r := a mod b in
  if 2 * r <? b then q
  else if b <? 2 * r then q + 1
  else if Z.even q then q else q + 1.

(** The double nearest to the integer [z], for a magnitude below 2^1023.
    Integers up to 2^53 in magnitude are doubles; a larger one keeps its 53
    leading bits, rounded. *)
Definition roundInteger (z : Z) : Z :=
  let a := Z.abs z in
  if a <=? 2 ^ 53 then z
  else
    let ulp := 2 ^ (Z.log2 a - 52) in
    Z.sgn z * (nearestEven a ulp * ulp).

Definition isDouble (z : Z) : bool := roundInteger z =? z.

(** [Math.floor(x / 60)] for a double [x] that is a non-negative integer
    below 2^1023.  The quotient [x / 60] is first rounded to the double
    nearest to it: its binary exponent is that of [x] less 5 or 6, and its
    53-bit significand is the nearest integer to the scaled quotient.  The
    floor of that double is then exact. *)
Definition floorDiv60 (x : Z) : Z :=
  if x =? 0 then 0
  else
    let top := Z.log2 x in
    let exponent := if 60 * 2 ^ top <=? 32 * x then top - 5 else top - 6 in
    let shift := exponent - 52 in
    if 0 <=? shift
    then nearestEven x (60 * 2 ^ shift) * 2 ^ shift
    else nearestEven (x * 2 ^ (- shift)) 60 / 2 ^ (- shift).

(** [Number(s)] for a non-empty run of decimal digits of value below 10^20:
    the double nearest to the value.  (Beyond twenty significant digits the
    language leaves the choice between two neighbours to the host.) *)
Definition Number (s : string) : option Z :=
  match s with
  | EmptyString => None
  | _ =>
      match parseDigits s 0 with
      | Some v => if v <? 10 ^ 20 then Some (roundInteger v) else None
      | None => None
      end
  end.

(** [hours * 60 + minutes], the product and the sum rounded in turn. *)
Definition timeToMinutes (timeString : string) : option Z :=
  match map Number (split ":" timeString) with
  | Some hours :: Some minutes :: _ =>
      Some (roundInteger (roundInteger (hours * 60) + minutes))
  | _ => None
  end.

(** [minutesToTime] for a double that is a non-negative integer and whose
    hour count is a safe integer, so that [toString] prints its digits.  The
    remainder [minutes % 60] of a double is exact. *)
Definition minutesToTime (minutes : Z) : option string :=
  if (0 <=? minutes) && isDouble minutes
  then
    let hours := floorDiv60 minutes in
    let mins := Z.rem minutes 60 in
    if hours <=? maxSafeInteger
    then Some (padStart2 (toString (Int hours)) +:+ ":"
                 +:+ padStart2 (toString (Int mins)))
    else None
  else None.

(** [getAppointmentEndTime] for a duration that is an integer double of
    magnitude below 2^1000. *)
Definition getAppointmentEndTime (startTime : string) (durationMinutes : Z)
  : option string :=
  match timeToMinutes startTime with
  | Some startMinutes =>
      if isDouble durationMinutes && (Z.abs durationMinutes <? 2 ^ 1000)
      then minutesToTime (roundInteger (startMinutes + durationMinutes))
      else None
  | None => None
  end.

End Double.

(** * Properties *)

(** Case analysis on the eight bits of a character. *)
Ltac ascii_cases c := destruct c as [[] [] [] [] [] [] [] []].

(** ** Decimal numerals *)

Lemma digitChar_spec (d : Z) :
  0 <= d < 10 -> isDigit (digitChar d) = true /\ digitValue (digitChar d) = d.
Proof.
  intros Hd.
  assert (Hcases : d = 0 \/ d = 1 \/ d = 2 \/ d = 3 \/ d = 4 \/ d = 5
                   \/ d = 6 \/ d = 7 \/ d = 8 \/ d = 9) by lia.
  repeat (destruct Hcases as [-> | Hcases]; [split; reflexivity |]).
  subst d; split; reflexivity.
Qed.

Lemma parseDigits_snoc (s : string) (c : ascii) (acc : Z) :
  parseDigits (s +:+ String c EmptyString) acc =
  match parseDigits s acc with
  | Some v => if isDigit c then Some (10 * v + digitValue c) else None
  | None => None
  end.
Proof.
  revert acc; induction s as [| c' s IH]; intros acc; simpl.
  - destruct (isDigit c); reflexivity.
  - destruct (isDigit c'); [apply IH | reflexivity].
Qed.

Lemma allDigits_snoc (s : string) (c : ascii) :
  allDigits (s +:+ String c EmptyString) = allDigits s && isDigit c.
Proof.
  induction s as [| c' s IH]; simpl.
  - apply andb_comm.
  - rewrite IH, andb_assoc; reflexivity.
Qed.

Lemma length_snoc (s : string) (c : ascii) :
  String.length (s +:+ String c EmptyString) = S (String.length s).
Proof. induction s as [| c' s IH]; simpl; [reflexivity | now rewrite IH]. Qed.

(** With enough fuel the digits of [n] are digits, at least one, and read
    back as [n]. *)
Lemma digitsOf_spec (fuel : nat) (n : Z) :
  0 <= n < 2 ^ Z.of_nat (S fuel) ->
  parseDigits (digitsOf (S fuel) n) 0 = Some n
  /\ allDigits (digitsOf (S fuel) n) = true
  /\ (0 < String.length (digitsOf (S fuel) n))%nat.
Proof.
  revert n; induction fuel as [| fuel IH]; intros n Hn.
  - assert (Hsmall : n < 10) by (change (2 ^ Z.of_nat 1) with 2 in Hn; lia).
    simpl. apply Z.ltb_lt in Hsmall as ->. simpl.
    rewrite Z.mod_small by lia.
    destruct (digitChar_spec n ltac:(lia)) as [-> ->].
    repeat split; try (f_equal; lia); simpl; lia.
  - change (digitsOf (S (S fuel)) n) with
      ((if n <? 10 then EmptyString else digitsOf (S fuel) (n / 10))
         +:+ String (digitChar (n mod 10)) EmptyString).
    rewrite parseDigits_snoc, allDigits_snoc, length_snoc.
    destruct (digitChar_spec (n mod 10)) as [Hdig Hval];
      [apply Z.mod_pos_bound; lia |].
    rewrite Hdig, Hval.
    destruct (Z.ltb_spec n 10) as [Hsmall | Hbig].
    + simpl. rewrite Z.mod_small by lia.
      repeat split; try (f_equal; lia); lia.
    + destruct (IH (n / 10)) as (Hparse & Hall & _).
      { split; [apply Z.div_pos; lia |].
        apply Z.div_lt_upper_bound; [lia |].
        rewrite (Nat2Z.inj_succ (S fuel)), Z.pow_succ_r in Hn by lia. lia. }
      rewrite Hparse, Hall.
      repeat split; try (f_equal; pose proof (Z.div_mod n 10); lia); lia.
Qed.

Lemma toString_nonneg (n : Z) :
  0 <= n ->
  parseDigits (toString (Int n)) 0 = Some n
  /\ allDigits (toString (Int n)) = true
  /\ (0 < String.length (toString (Int n)))%nat.
Proof.
  intros Hn. unfold toString.
  destruct (Z.ltb_spec n 0) as [Hneg | _]; [lia |].
  rewrite Z.abs_eq by lia.
  apply digitsOf_spec. split; [lia |].
  rewrite Nat2Z.inj_succ, Z2Nat.id by apply Z.log2_nonneg.
  destruct (Z.eq_dec n 0) as [-> | Hpos]; [reflexivity |].
  apply Z.log2_spec; lia.
Qed.

Lemma isDigit_cases (c : ascii) :
  isDigit c = true ->
  Ascii.eqb c ":" = false /\ c <> "-"%char /\ c <> "+"%char
  /\ 0 <= digitValue c <= 9.
Proof.
  ascii_cases c; vm_compute; intros H;
    try discriminate H; repeat split; discriminate.
Qed.

(** On a non-empty run of digits [Number] is the decimal value. *)
Lemma Number_digits (s : string) (v : Z) :
  allDigits s = true -> (0 < String.length s)%nat ->
  parseDigits s 0 = Some v -> Number s = Int v.
Proof.
  destruct s as [| c rest]; [simpl; lia |].
  intros Hall _ Hparse.
  pose proof Hall as Hc. simpl in Hc. apply andb_true_iff in Hc as [Hc _].
  destruct (isDigit_cases c Hc) as (_ & Hminus & Hplus & _).
  assert (Hnum : Number (String c rest) = unsignedNumber (String c rest)).
  { unfold Number.
    ascii_cases c; try reflexivity; exfalso; auto. }
  rewrite Hnum. unfold unsignedNumber. now rewrite Hparse.
Qed.

Lemma padStart2_digits (s : string) (v : Z) :
  allDigits s = true -> (0 < String.length s)%nat ->
  parseDigits s 0 = Some v ->
  Number (padStart2 s) = Int v /\ allDigits (padStart2 s) = true.
Proof.
  intros Hall Hlen Hparse. unfold padStart2.
  destruct s as [| c [| c' rest]]; simpl in Hlen; [lia | |].
  - split; [| exact Hall].
    apply Number_digits; [exact Hall | simpl; lia | exact Hparse].
  - split; [| exact Hall].
    apply Number_digits; [exact Hall | simpl; lia | exact Hparse].
Qed.

Lemma padStart2_toString (n : Z) :
  0 <= n ->
  Number (padStart2 (toString (Int n))) = Int n
  /\ allDigits (padStart2 (toString (Int n))) = true.
Proof.
  intros Hn. destruct (toString_nonneg n Hn) as (Hparse & Hall & Hlen).
  now apply padStart2_digits.
Qed.

(** ** Splitting at the colon *)

Lemma split_digits (s : string) :
  allDigits s = true -> split ":" s = [s].
Proof.
  induction s as [| c s IH]; simpl; [reflexivity |].
  intros Hall. apply andb_true_iff in Hall as [Hc Hs].
  destruct (isDigit_cases c Hc) as (-> & _). now rewrite IH.
Qed.

Lemma split_digits_colon (s1 s2 : string) :
  allDigits s1 = true ->
  split ":" (s1 +:+ String ":" s2) = s1 :: split ":" s2.
Proof.
  induction s1 as [| c s1 IH]; simpl; [reflexivity |].
  intros Hall. apply andb_true_iff in Hall as [Hc Hs].
  destruct (isDigit_cases c Hc) as (-> & _). now rewrite IH.
Qed.

Lemma timeToMinutes_join (hs ms : string) (h m : Z) :
  allDigits hs = true -> allDigits ms = true ->
  Number hs = Int h -> Number ms = Int m ->
  timeToMinutes (hs +:+ String ":" ms) = Int (h * 60 + m).
Proof.
  intros Hhs Hms Hh Hm. unfold timeToMinutes.
  rewrite split_digits_colon, split_digits by assumption.
  simpl. now rewrite Hh, Hm.
Qed.

(** ** Round trip between minutes and clock strings *)

Lemma minutesToTime_nonneg (m : Z) :
  0 <= m ->
  minutesToTime (Int m) =
  padStart2 (toString (Int (m / 60))) +:+
    String ":" (padStart2 (toString (Int (m mod 60)))).
Proof.
  intros Hm. unfold minutesToTime, floorDiv60, rem60.
  rewrite Z.rem_mod_nonneg by lia. reflexivity.
Qed.

Lemma timeToMinutes_minutesToTime (m : Z) :
  0 <= m -> timeToMinutes (minutesToTime (Int m)) = Int m.
Proof.
  intros Hm. rewrite minutesToTime_nonneg by exact Hm.
  assert (Hq : 0 <= m / 60) by (apply Z.div_pos; lia).
  assert (Hr : 0 <= m mod 60) by (apply Z.mod_pos_bound; lia).
  destruct (padStart2_toString _ Hq) as [Hnh Hah].
  destruct (padStart2_toString _ Hr) as [Hnm Ham].
  rewrite (timeToMinutes_join _ _ _ _ Hah Ham Hnh Hnm).
  f_equal. pose proof (Z.div_mod m 60). lia.
Qed.

Lemma hourComponent_minutesToTime (m : Z) :
  0 <= m -> hourComponent (minutesToTime (Int m)) = Int (m / 60).
Proof.
  intros Hm. rewrite minutesToTime_nonneg by exact Hm.
  assert (Hq : 0 <= m / 60) by (apply Z.div_pos; lia).
  destruct (padStart2_toString _ Hq) as [Hnh Hah].
  unfold hourComponent. now rewrite split_digits_colon.
Qed.


(** ** Clock times of the shape HH:MM *)

Lemma clockFields_inv (t : string) (h m : Z) :
  clockFields t = Some (h, m) ->
  exists h1 h2 m1 m2,
    t = String h1 (String h2 (String ":" (String m1 (String m2 EmptyString))))
    /\ isDigit h1 = true /\ isDigit h2 = true
    /\ isDigit m1 = true /\ isDigit m2 = true
    /\ h = 10 * digitValue h1 + digitValue h2
    /\ m = 10 * digitValue m1 + digitValue m2.
Proof.
  unfold clockFields.
  destruct t as [| h1 [| h2 [| c [| m1 [| m2 [| ? ?]]]]]]; try discriminate;
    (ascii_cases c; try discriminate).
  destruct (isDigit h1) eqn:H1; [| discriminate].
  destruct (isDigit h2) eqn:H2; [| discriminate].
  destruct (isDigit m1) eqn:H3; [| discriminate].
  destruct (isDigit m2) eqn:H4; [| discriminate].
  simpl. intros [= <- <-]. exists h1, h2, m1, m2.
  repeat split; assumption || reflexivity.
Qed.

Lemma two_digits (a b : ascii) :
  isDigit a = true -> isDigit b = true ->
  allDigits (String a (String b EmptyString)) = true
  /\ Number (String a (String b EmptyString))
     = Int (10 * digitValue a + digitValue b)
  /\ 0 <= 10 * digitValue a + digitValue b <= 99.
Proof.
  intros Ha Hb.
  assert (Had : allDigits (String a (String b EmptyString)) = true)
    by (simpl; now rewrite Ha, Hb).
  destruct (isDigit_cases _ Ha) as (_ & _ & _ & Ba).
  destruct (isDigit_cases _ Hb) as (_ & _ & _ & Bb).
  split; [exact Had |]. split; [| lia].
  apply Number_digits; [exact Had | simpl; lia |].
  simpl. rewrite Ha, Hb. f_equal.
Qed.

Lemma clockFields_shape (t : string) (h m : Z) :
  clockFields t = Some (h, m) ->
  exists hs ms,
    t = hs +:+ String ":" ms
    /\ allDigits hs = true /\ allDigits ms = true
    /\ Number hs = Int h /\ Number ms = Int m
    /\ 0 <= h <= 99 /\ 0 <= m <= 99.
Proof.
  intros Hf.
  destruct (clockFields_inv t h m Hf)
    as (h1 & h2 & m1 & m2 & -> & H1 & H2 & H3 & H4 & -> & ->).
  destruct (two_digits h1 h2 H1 H2) as (Hah & Hnh & Hbh).
  destruct (two_digits m1 m2 H3 H4) as (Ham & Hnm & Hbm).
  exists (String h1 (String h2 EmptyString)),
         (String m1 (String m2 EmptyString)).
  repeat split; assumption || lia.
Qed.

Lemma timeToMinutes_clock (t : string) (h m : Z) :
  clockFields t = Some (h, m) -> timeToMinutes t = Int (h * 60 + m).
Proof.
  intros Hf.
  destruct (clockFields_shape t h m Hf)
    as (hs & ms & -> & Hhs & Hms & Hh & Hm & _).
  now apply timeToMinutes_join.
Qed.

(** A well-formed clock time denotes a number of minutes, never NaN. *)
Lemma timeToMinutes_isClockTime (t : string) :
  isClockTime t = true ->
  timeToMinutes t = Int (clockMinutes t) /\ 0 <= clockMinutes t.
Proof.
  unfold isClockTime. intros Hc.
  destruct (clockFields t) as [[h m] |] eqn:Hf; [| discriminate].
  destruct (clockFields_shape t h m Hf) as (_ & _ & _ & _ & _ & _ & _ & Hh & Hm).
  unfold clockMinutes. rewrite (timeToMinutes_clock t h m Hf).
  split; [reflexivity | lia].
Qed.

(** Below 100 the padded numeral is exactly two digits. *)
Lemma padStart2_two_digits (n : Z) :
  0 <= n <= 99 ->
  padStart2 (toString (Int n)) =
  String (digitChar (n / 10)) (String (digitChar (n mod 10)) EmptyString).
Proof.
  intros Hn.
  assert (Htable :
    forallb (fun k =>
      String.eqb (padStart2 (toString (Int (Z.of_nat k))))
        (String (digitChar (Z.of_nat k / 10))
           (String (digitChar (Z.of_nat k mod 10)) EmptyString)))
      (seq 0 100) = true) by (vm_compute; reflexivity).
  rewrite forallb_forall in Htable.
  specialize (Htable (Z.to_nat n)).
  rewrite Z2Nat.id in Htable by lia.
  apply String.eqb_eq, Htable, in_seq. lia.
Qed.

Lemma clockFields_minutesToTime (m : Z) :
  0 <= m <= 5999 ->
  clockFields (minutesToTime (Int m)) = Some (m / 60, m mod 60).
Proof.
  intros Hm. rewrite minutesToTime_nonneg by lia.
  assert (Hq : 0 <= m / 60 <= 99).
  { assert (m / 60 < 100) by (apply Z.div_lt_upper_bound; lia).
    split; [apply Z.div_pos; lia | lia]. }
  assert (Hr : 0 <= m mod 60 < 60) by (apply Z.mod_pos_bound; lia).
  rewrite !padStart2_two_digits by lia.
  set (h := m / 60) in *. set (r := m mod 60) in *.
  assert (Hd : forall n, 0 <= n <= 99 ->
            isDigit (digitChar (n / 10)) = true
            /\ isDigit (digitChar (n mod 10)) = true
            /\ 10 * digitValue (digitChar (n / 10))
               + digitValue (digitChar (n mod 10)) = n).
  { intros n Hn.
    destruct (digitChar_spec (n / 10)) as [-> ->].
    { split; [apply Z.div_pos; lia | apply Z.div_lt_upper_bound; lia]. }
    destruct (digitChar_spec (n mod 10)) as [-> ->].
    { apply Z.mod_pos_bound; lia. }
    repeat split. pose proof (Z.div_mod n 10). lia. }
  destruct (Hd h ltac:(lia)) as (H1 & H2 & Hh).
  destruct (Hd r ltac:(lia)) as (H3 & H4 & Hmr).
  cbv [append clockFields]. rewrite H1, H2, H3, H4.
  cbn [andb]. now rewrite Hh, Hmr.
Qed.

(** ** Double-precision rounding on the safe integers

    Up to 2^53 - 1 no operation of the conversions rounds, so the exact
    embedding and the one with rounding written out agree. *)

Lemma nearestEven_bound (a b : Z) :
  0 < b -> - b <= 2 * (b * Double.nearestEven a b - a) <= b.
Proof.
  intros Hb. unfold Double.nearestEven.
  pose proof (Z.div_mod a b ltac:(lia)) as Hdiv.
  pose proof (Z.mod_pos_bound a b Hb) as Hmod.
  set (q := a / b) in *. set (r := a mod b) in *.
  destruct (Z.ltb_spec (2 * r) b); [lia |].
  destruct (Z.ltb_spec b (2 * r)); [lia |].
  destruct (Z.even q); lia.
Qed.

Lemma roundInteger_safe (z : Z) :
  Z.abs z <= 2 ^ 53 -> Double.roundInteger z = z.
Proof.
  intros Hz. unfold Double.roundInteger.
  now apply Z.leb_le in Hz as ->.
Qed.

Lemma isDouble_safe (z : Z) :
  Z.abs z <= 2 ^ 53 -> Double.isDouble z = true.
Proof.
  intros Hz. unfold Double.isDouble. rewrite roundInteger_safe by exact Hz.
  apply Z.eqb_refl.
Qed.

Lemma floorDiv60_safe (m : Z) :
  0 <= m <= Double.maxSafeInteger -> Double.floorDiv60 m = m / 60.
Proof.
  intros Hm. unfold Double.maxSafeInteger in Hm. unfold Double.floorDiv60.
  destruct (Z.eqb_spec m 0) as [-> | Hpos]; [reflexivity |].
  assert (Htop : Z.log2 m < 53) by (apply Z.log2_lt_pow2; lia).
  pose proof (Z.log2_nonneg m) as Htop0.
  set (top := Z.log2 m) in *.
  set (exponent := if 60 * 2 ^ top <=? 32 * m then top - 5 else top - 6).
  assert (Hexp : exponent <= 47).
  { unfold exponent. destruct (60 * 2 ^ top <=? 32 * m); lia. }
  cbv zeta.
  destruct (Z.leb_spec 0 (exponent - 52)) as [Hbad | _]; [lia |].
  set (s := - (exponent - 52)).
  assert (Hs : 5 <= s) by (unfold s; lia).
  assert (HP : 32 <= 2 ^ s).
  { change 32 with (2 ^ 5). apply Z.pow_le_mono_r; lia. }
  set (P := 2 ^ s) in *.
  pose proof (nearestEven_bound (m * P) 60 ltac:(lia)) as HM.
  set (M := Double.nearestEven (m * P) 60) in *.
  pose proof (Z.div_mod m 60 ltac:(lia)) as Hdiv.
  pose proof (Z.mod_pos_bound m 60 ltac:(lia)) as Hmod.
  set (q := m / 60) in *. set (r := m mod 60) in *.
  symmetry. apply Z.div_unique with (r := M - q * P); nia.
Qed.

Lemma parseDigits_padStart2 (s : string) (v : Z) :
  (0 < String.length s)%nat -> parseDigits s 0 = Some v ->
  parseDigits (padStart2 s) 0 = Some v /\ padStart2 s <> EmptyString.
Proof.
  intros Hlen Hparse. unfold padStart2.
  destruct s as [| c [| c' rest]]; simpl in Hlen; [lia | |].
  - split; [exact Hparse | discriminate].
  - split; [exact Hparse | discriminate].
Qed.

Lemma DoubleNumber_padStart2 (n : Z) :
  0 <= n <= Double.maxSafeInteger ->
  Double.Number (padStart2 (toString (Int n))) = Some n.
Proof.
  intros Hn. unfold Double.maxSafeInteger in Hn.
  destruct (toString_nonneg n ltac:(lia)) as (Hparse & _ & Hlen).
  destruct (parseDigits_padStart2 _ _ Hlen Hparse) as [Hpad Hne].
  unfold Double.Number. rewrite Hpad.
  destruct (padStart2 (toString (Int n))); [congruence |].
  destruct (Z.ltb_spec n (10 ^ 20)) as [_ | Hbig]; [| lia].
  now rewrite roundInteger_safe by lia.
Qed.

Lemma DoubleTimeToMinutes_join (hs ms : string) (h m : Z) :
  allDigits hs = true -> allDigits ms = true ->
  Double.Number hs = Some h -> Double.Number ms = Some m ->
  Double.timeToMinutes (hs +:+ String ":" ms)
  = Some (Double.roundInteger (Double.roundInteger (h * 60) + m)).
Proof.
  intros Hhs Hms Hh Hm. unfold Double.timeToMinutes.
  rewrite split_digits_colon, split_digits by assumption.
  simpl. now rewrite Hh, Hm.
Qed.

Lemma DoubleMinutesToTime_safe (m : Z) :
  0 <= m <= Double.maxSafeInteger ->
  Double.minutesToTime m = Some (minutesToTime (Int m)).
Proof.
  intros Hm. unfold Double.minutesToTime.
  rewrite floorDiv60_safe by exact Hm.
  unfold Double.maxSafeInteger in *.
  rewrite isDouble_safe by lia.
  destruct (Z.leb_spec 0 m) as [_ | Hneg]; [| lia].
  assert (Hq : m / 60 <= m).
  { apply Z.div_le_upper_bound; lia. }
  destruct (Z.leb_spec (m / 60) (2 ^ 53 - 1)) as [_ | Hbig]; [| lia].
  reflexivity.
Qed.

Lemma DoubleTimeToMinutes_minutesToTime (m : Z) :
  0 <= m <= Double.maxSafeInteger ->
  Double.timeToMinutes (minutesToTime (Int m)) = Some m.
Proof.
  intros Hm. rewrite minutesToTime_nonneg by lia.
  pose proof (Z.div_mod m 60 ltac:(lia)) as Hdiv.
  pose proof (Z.mod_pos_bound m 60 ltac:(lia)) as Hr.
  assert (Hq : 0 <= m / 60) by (apply Z.div_pos; lia).
  unfold Double.maxSafeInteger in Hm.
  destruct (padStart2_toString _ Hq) as [_ Hah].
  destruct (padStart2_toString (m mod 60) ltac:(lia)) as [_ Ham].
  rewrite (DoubleTimeToMinutes_join _ _ (m / 60) (m mod 60) Hah Ham).
  - rewrite (roundInteger_safe (m / 60 * 60)) by lia.
    rewrite roundInteger_safe by lia. f_equal; lia.
  - apply DoubleNumber_padStart2. unfold Double.maxSafeInteger. lia.
  - apply DoubleNumber_padStart2. unfold Double.maxSafeInteger. lia.
Qed.

Lemma DoubleNumber_two_digits (a b : ascii) :
  isDigit a = true -> isDigit b = true ->
  Double.Number (String a (String b EmptyString))
  = Some (10 * digitValue a + digitValue b).
Proof.
  intros Ha Hb.
  destruct (isDigit_cases _ Ha) as (_ & _ & _ & Ba).
  destruct (isDigit_cases _ Hb) as (_ & _ & _ & Bb).
  unfold Double.Number. simpl. rewrite Ha, Hb.
  replace (10 * (10 * 0 + digitValue a) + digitValue b)
    with (10 * digitValue a + digitValue b) by lia.
  destruct (Z.ltb_spec (10 * digitValue a + digitValue b) (10 ^ 20))
    as [_ | Hbig]; [| lia].
  now rewrite roundInteger_safe by lia.
Qed.

Lemma DoubleTimeToMinutes_clock (t : string) :
  isClockTime t = true ->
  Double.timeToMinutes t = Some (clockMinutes t)
  /\ 0 <= clockMinutes t <= 9999.
Proof.
  intros Hclock. unfold isClockTime in Hclock.
  destruct (clockFields t) as [[h m] |] eqn:Hf; [| discriminate].
  unfold clockMinutes. rewrite (timeToMinutes_clock t h m Hf).
  destruct (clockFields_inv t h m Hf)
    as (h1 & h2 & m1 & m2 & -> & H1 & H2 & H3 & H4 & -> & ->).
  destruct (isDigit_cases _ H1) as (_ & _ & _ & B1).
  destruct (isDigit_cases _ H2) as (_ & _ & _ & B2).
  destruct (isDigit_cases _ H3) as (_ & _ & _ & B3).
  destruct (isDigit_cases _ H4) as (_ & _ & _ & B4).
  split; [| lia].
  pose proof (two_digits h1 h2 H1 H2) as (Hah & _).
  pose proof (two_digits m1 m2 H3 H4) as (Ham & _).
  change (String h1 (String h2 (String ":" (String m1 (String m2 EmptyString)))))
    with (String h1 (String h2 EmptyString)
            +:+ String ":" (String m1 (String m2 EmptyString))).
  rewrite (DoubleTimeToMinutes_join _ _ _ _ Hah Ham
             (DoubleNumber_two_digits _ _ H1 H2)
             (DoubleNumber_two_digits _ _ H3 H4)).
  rewrite (roundInteger_safe ((10 * digitValue h1 + digitValue h2) * 60)) by lia.
  now rewrite roundInteger_safe by lia.
Qed.

(** ** Claims about the conversions and the overlap test *)

(** C8. Round trip over one day: for every minute count [m] from 0 to 1439,
    [timeToMinutes (minutesToTime m)] is [m], and [minutesToTime m] is a
    two-digit hour, a colon and a two-digit minute, holding [m / 60] and
    [m mod 60]. *)
Theorem minutesToTime_roundtrip_day (m : Z) :
  0 <= m <= 1439 ->
  timeToMinutes (minutesToTime (Int m)) = Int m
  /\ clockFields (minutesToTime (Int m)) = Some (m / 60, m mod 60).
Proof.
  intros Hm. split.
  - apply timeToMinutes_minutesToTime; lia.
  - apply clockFields_minutesToTime; lia.
Qed.

Lemma minutesToTime_roundtrip_day_witness :
  0 <= 570 <= 1439
  /\ timeToMinutes (minutesToTime (Int 570)) = Int 570
  /\ clockFields (minutesToTime (Int 570)) = Some (570 / 60, 570 mod 60).
Proof.
  split; [lia | apply (minutesToTime_roundtrip_day 570); lia].
Defined.

(** C10, for safe integers.  [minutesToTime] does not reduce modulo 1440:
    for every minute count [m] from 0 to 2^53 - 1 the round trip
    [timeToMinutes (minutesToTime m)] is [m], with no rounding on the way;
    from 1440 on the hour component of the string is 24 or more, as in
    [minutesToTime 1530 = "25:30"]; and the end time of a booking that runs
    past midnight is such a string, whose minute count is the start plus the
    duration. *)
Theorem minutesToTime_past_midnight_safe :
  (forall m, 0 <= m <= Double.maxSafeInteger ->
     timeToMinutes (minutesToTime (Int m)) = Int m
     /\ Double.minutesToTime m = Some (minutesToTime (Int m))
     /\ Double.timeToMinutes (minutesToTime (Int m)) = Some m)
  /\ (forall m, 1440 <= m <= Double.maxSafeInteger ->
        exists h, hourComponent (minutesToTime (Int m)) = Int h /\ 24 <= h)
  /\ minutesToTime (Int 1530) = "25:30"
  /\ Double.minutesToTime 1530 = Some "25:30"
  /\ (forall startTime durationMinutes,
        isClockTime startTime = true ->
        1440 <= clockMinutes startTime + durationMinutes
             <= Double.maxSafeInteger ->
        Double.getAppointmentEndTime startTime durationMinutes
          = Some (getAppointmentEndTime startTime durationMinutes)
        /\ exists h,
          hourComponent (getAppointmentEndTime startTime durationMinutes)
            = Int h
          /\ 24 <= h
          /\ timeToMinutes (getAppointmentEndTime startTime durationMinutes)
             = Int (clockMinutes startTime + durationMinutes)
          /\ Double.timeToMinutes
               (getAppointmentEndTime startTime durationMinutes)
             = Some (clockMinutes startTime + durationMinutes)).
Proof.
  split.
  { intros m Hm. split; [apply timeToMinutes_minutesToTime; lia |].
    split; [now apply DoubleMinutesToTime_safe
           | now apply DoubleTimeToMinutes_minutesToTime]. }
  assert (Hhour : forall m, 1440 <= m ->
            exists h, hourComponent (minutesToTime (Int m)) = Int h /\ 24 <= h).
  { intros m Hm. exists (m / 60). split.
    - apply hourComponent_minutesToTime; lia.
    - apply Z.div_le_lower_bound; lia. }
  split; [intros m Hm; apply Hhour; lia |].
  split; [reflexivity |]. split; [reflexivity |].
  intros startTime durationMinutes Hclock Hlate.
  destruct (timeToMinutes_isClockTime _ Hclock) as [Hstart Hpos].
  destruct (DoubleTimeToMinutes_clock _ Hclock) as [Hstart64 Hsmall].
  unfold Double.maxSafeInteger in Hlate.
  assert (Hend : getAppointmentEndTime startTime durationMinutes
                 = minutesToTime (Int (clockMinutes startTime + durationMinutes))).
  { unfold getAppointmentEndTime. now rewrite Hstart. }
  split.
  - unfold Double.getAppointmentEndTime. rewrite Hstart64, Hend.
    rewrite isDouble_safe by lia.
    destruct (Z.ltb_spec (Z.abs durationMinutes) (2 ^ 1000)) as [_ | Hbig].
    + cbn [andb]. rewrite roundInteger_safe by lia.
      apply DoubleMinutesToTime_safe. unfold Double.maxSafeInteger. lia.
    + exfalso. assert (2 ^ 53 <= 2 ^ 1000) by (apply Z.pow_le_mono_r; lia). lia.
  - rewrite Hend.
    destruct (Hhour (clockMinutes startTime + durationMinutes) ltac:(lia))
      as (h & Hh & H24).
    exists h. split; [exact Hh |]. split; [exact H24 |].
    split; [apply timeToMinutes_minutesToTime; lia |].
    apply DoubleTimeToMinutes_minutesToTime. unfold Double.maxSafeInteger. lia.
Qed.

Lemma minutesToTime_past_midnight_safe_witness :
  (timeToMinutes (minutesToTime (Int 1530)) = Int 1530
   /\ Double.minutesToTime 1530 = Some (minutesToTime (Int 1530))
   /\ Double.timeToMinutes (minutesToTime (Int 1530)) = Some 1530)
  /\ (exists h, hourComponent (minutesToTime (Int 1530)) = Int h /\ 24 <= h)
  /\ Double.getAppointmentEndTime "23:30" 120
      = Some (getAppointmentEndTime "23:30" 120)
  /\ (exists h,
        hourComponent (getAppointmentEndTime "23:30" 120) = Int h
        /\ 24 <= h
        /\ timeToMinutes (getAppointmentEndTime "23:30" 120)
           = Int (clockMinutes "23:30" + 120)
        /\ Double.timeToMinutes (getAppointmentEndTime "23:30" 120)
           = Some (clockMinutes "23:30" + 120)).
Proof.
  destruct minutesToTime_past_midnight_safe as (Hround & Hhour & _ & _ & Hend).
  split; [apply Hround; vm_compute; split; discriminate |].
  split; [apply Hhour; vm_compute; split; discriminate |].
  apply Hend; [reflexivity | vm_compute; split; discriminate].
Defined.

(** C10 as stated, for every non-negative integer, fails beyond the safe
    integers.  The minute count 36028797018964024 is a double; its string is
    "600479950316067:04", and reading that string back rounds
    600479950316067 * 60 = 36028797018964020, which lies half way between
    two doubles, down to 36028797018964016, where adding 4 rounds down
    again. *)
Lemma minutesToTime_roundtrip_rounds :
  Double.isDouble 36028797018964024 = true
  /\ Double.minutesToTime 36028797018964024 = Some "600479950316067:04"
  /\ Double.timeToMinutes "600479950316067:04" = Some 36028797018964016
  /\ 36028797018964016 <> 36028797018964024.
Proof. repeat split; vm_compute; congruence. Qed.

(** C2. On well-formed clock times [doTimeRangesOverlap] is true exactly
    when the first start is before the second end and the second start is
    before the first end, both strictly.  So ranges that touch (one ends
    where the other starts) do not overlap, as 09:00-10:00 and 10:00-11:00,
    while a range whose start is before its end overlaps itself. *)
Theorem doTimeRangesOverlap_iff (start1 end1 start2 end2 : string) :
  isClockTime start1 = true -> isClockTime end1 = true ->
  isClockTime start2 = true -> isClockTime end2 = true ->
  (doTimeRangesOverlap start1 end1 start2 end2 = true <->
     clockMinutes start1 < clockMinutes end2
     /\ clockMinutes start2 < clockMinutes end1)
  /\ (clockMinutes end1 = clockMinutes start2 ->
      doTimeRangesOverlap start1 end1 start2 end2 = false)
  /\ (clockMinutes end2 = clockMinutes start1 ->
      doTimeRangesOverlap start1 end1 start2 end2 = false)
  /\ (clockMinutes start1 < clockMinutes end1 ->
      doTimeRangesOverlap start1 end1 start1 end1 = true)
  /\ doTimeRangesOverlap "09:00" "10:00" "10:00" "11:00" = false.
Proof.
  intros H1 H2 H3 H4.
  destruct (timeToMinutes_isClockTime _ H1) as [E1 _].
  destruct (timeToMinutes_isClockTime _ H2) as [E2 _].
  destruct (timeToMinutes_isClockTime _ H3) as [E3 _].
  destruct (timeToMinutes_isClockTime _ H4) as [E4 _].
  assert (Htest : forall a b c d,
            (a <? d) && (c <? b) = true <-> a < d /\ c < b).
  { intros a b c d. rewrite andb_true_iff, !Z.ltb_lt. reflexivity. }
  unfold doTimeRangesOverlap. rewrite E1, E2, E3, E4. cbn [lt].
  split; [apply Htest |].
  split; [intros Heq; apply not_true_is_false; rewrite Htest; lia |].
  split; [intros Heq; apply not_true_is_false; rewrite Htest; lia |].
  split; [intros Hlt; apply Htest; lia | reflexivity].
Qed.

Lemma doTimeRangesOverlap_iff_witness :
  (doTimeRangesOverlap "09:00" "10:00" "09:30" "10:30" = true <->
     clockMinutes "09:00" < clockMinutes "10:30"
     /\ clockMinutes "09:30" < clockMinutes "10:00")
  /\ (clockMinutes "10:00" = clockMinutes "09:30" ->
      doTimeRangesOverlap "09:00" "10:00" "09:30" "10:30" = false)
  /\ (clockMinutes "10:30" = clockMinutes "09:00" ->
      doTimeRangesOverlap "09:00" "10:00" "09:30" "10:30" = false)
  /\ (clockMinutes "09:00" < clockMinutes "10:00" ->
      doTimeRangesOverlap "09:00" "10:00" "09:00" "10:00" = true)
  /\ doTimeRangesOverlap "09:00" "10:00" "10:00" "11:00" = false.
Proof.
  apply (doTimeRangesOverlap_iff "09:00" "10:00" "09:30" "10:30");
    reflexivity.
Defined.

(** ** The conflict check *)

Lemma AppointmentStatus_eqb_eq (a b : AppointmentStatus) :
  AppointmentStatus_eqb a b = true <-> a = b.
Proof. destruct a, b; simpl; split; congruence. Qed.

Lemma concerns_spec (staffId date : string) (a : Appointment.t) :
  concerns staffId date a = true <->
  Appointment.staffId a = staffId
  /\ Appointment.date a = date
  /\ Appointment.status a <> cancelled.
Proof.
  unfold concerns.
  rewrite !andb_true_iff, negb_true_iff, !String.eqb_eq.
  rewrite <- not_true_iff_false, AppointmentStatus_eqb_eq. tauto.
Qed.

Lemma concerns_cancelled (staffId date : string) (a : Appointment.t) :
  notCancelled a = false -> concerns staffId date a = false.
Proof.
  unfold concerns, notCancelled. intros ->. apply andb_false_r.
Qed.

(** The scan answers [false] exactly when one appointment passes the guard
    and overlaps the proposed range. *)
Lemma scanAppointments_false_iff (proposedStartTime proposedEndTime : string)
  (staffId date : string) (l : list Appointment.t) :
  scanAppointments proposedStartTime proposedEndTime staffId date l = false
  <->
  exists a, In a l
    /\ concerns staffId date a = true
    /\ doTimeRangesOverlap proposedStartTime proposedEndTime
         (Appointment.time a) (appointmentEndTime a) = true.
Proof.
  induction l as [| a l IH]; simpl.
  - split; [discriminate | intros (a & [] & _)].
  - destruct (concerns staffId date a
              && doTimeRangesOverlap proposedStartTime proposedEndTime
                   (Appointment.time a) (appointmentEndTime a)) eqn:Hhit.
    + apply andb_true_iff in Hhit as [Hc Ho].
      split; [intros _; exists a; auto | reflexivity].
    + rewrite IH. split.
      * intros (b & Hin & Hc & Ho). exists b; auto.
      * intros (b & [<- | Hin] & Hc & Ho).
        -- rewrite Hc, Ho in Hhit. discriminate.
        -- exists b; auto.
Qed.

Lemma scanAppointments_filter (proposedStartTime proposedEndTime : string)
  (staffId date : string) (l : list Appointment.t) :
  scanAppointments proposedStartTime proposedEndTime staffId date
    (List.filter notCancelled l)
  = scanAppointments proposedStartTime proposedEndTime staffId date l.
Proof.
  induction l as [| a l IH]; simpl; [reflexivity |].
  destruct (notCancelled a) eqn:Hn; simpl.
  - now rewrite IH.
  - now rewrite (concerns_cancelled _ _ _ Hn), IH.
Qed.

Lemma scanAppointments_pointwise (proposedStartTime proposedEndTime : string)
  (staffId date : string) (before after : list Appointment.t)
  (a b : Appointment.t) :
  concerns staffId date a = concerns staffId date b ->
  Appointment.time a = Appointment.time b ->
  appointmentEndTime a = appointmentEndTime b ->
  scanAppointments proposedStartTime proposedEndTime staffId date
    (before ++ a :: after)
  = scanAppointments proposedStartTime proposedEndTime staffId date
    (before ++ b :: after).
Proof.
  intros Hc Ht He. induction before as [| x before IH]; simpl.
  - now rewrite Hc, Ht, He.
  - now rewrite IH.
Qed.

Lemma isClockTime_truthy (e : string) (fallback : string) :
  isClockTime e = true -> orElse (Some e) fallback = e.
Proof. destruct e; [discriminate | reflexivity]. Qed.

Lemma getAppointmentEndTime_minutes (startTime : string) (d : Z) :
  isClockTime startTime = true -> 0 <= clockMinutes startTime + d ->
  timeToMinutes (getAppointmentEndTime startTime d)
  = Int (clockMinutes startTime + d).
Proof.
  intros Hc Hd. destruct (timeToMinutes_isClockTime _ Hc) as [Hs _].
  unfold getAppointmentEndTime. rewrite Hs. cbn [add].
  now apply timeToMinutes_minutesToTime.
Qed.

Lemma appointmentEndTime_minutes (a : Appointment.t) :
  wellFormedAppointment a ->
  timeToMinutes (appointmentEndTime a) = Int (effectiveEnd a).
Proof.
  intros [Ht He]. unfold appointmentEndTime, effectiveEnd.
  destruct (Appointment.endTime a) as [e |].
  - specialize (He e eq_refl).
    rewrite isClockTime_truthy by exact He.
    apply timeToMinutes_isClockTime, He.
  - cbn [orElse]. apply getAppointmentEndTime_minutes; [exact Ht |].
    destruct (timeToMinutes_isClockTime _ Ht); lia.
Qed.

Lemma overlap_proposed (proposedStart : string) (d : Z) (a : Appointment.t) :
  isClockTime proposedStart = true -> 0 < d -> wellFormedAppointment a ->
  doTimeRangesOverlap proposedStart (getAppointmentEndTime proposedStart d)
    (Appointment.time a) (appointmentEndTime a) = true
  <->
  rangesOverlap (clockMinutes proposedStart) (clockMinutes proposedStart + d)
    (clockMinutes (Appointment.time a)) (effectiveEnd a).
Proof.
  intros Hp Hd Hwf.
  destruct (timeToMinutes_isClockTime _ Hp) as [Ep Hpos].
  destruct (timeToMinutes_isClockTime _ (proj1 Hwf)) as [Et _].
  unfold doTimeRangesOverlap, rangesOverlap.
  rewrite Ep, Et, (appointmentEndTime_minutes a Hwf).
  rewrite getAppointmentEndTime_minutes by (assumption || lia).
  cbn [lt]. rewrite andb_true_iff, !Z.ltb_lt. reflexivity.
Qed.

(** C1. With a well-formed proposed start, a positive duration and
    well-formed appointments, [isTimeSlotAvailable] is [false] exactly when
    some appointment of the list is for the given staff member and date, is
    not cancelled, and its range from [time] to its effective end overlaps
    the proposed range from the start to the start plus the duration; it is
    [true] when there is no such appointment, and on the empty list. *)
Theorem isTimeSlotAvailable_false_iff (proposedStartTime : string)
  (serviceDuration : Z) (existingAppointments : list Appointment.t)
  (staffId date : string) :
  isClockTime proposedStartTime = true ->
  0 < serviceDuration ->
  Forall wellFormedAppointment existingAppointments ->
  (isTimeSlotAvailable proposedStartTime serviceDuration
     existingAppointments staffId date = false
   <-> exists a, In a existingAppointments
         /\ conflictsWith proposedStartTime serviceDuration staffId date a)
  /\ ((forall a, In a existingAppointments ->
         ~ conflictsWith proposedStartTime serviceDuration staffId date a) ->
      isTimeSlotAvailable proposedStartTime serviceDuration
        existingAppointments staffId date = true)
  /\ isTimeSlotAvailable proposedStartTime serviceDuration [] staffId date
     = true.
Proof.
  intros Hp Hd Hwf.
  assert (Hiff :
    isTimeSlotAvailable proposedStartTime serviceDuration
      existingAppointments staffId date = false
    <-> exists a, In a existingAppointments
          /\ conflictsWith proposedStartTime serviceDuration staffId date a).
  { unfold isTimeSlotAvailable. rewrite scanAppointments_false_iff.
    rewrite List.Forall_forall in Hwf.
    split; intros (a & Hin & H); exists a; (split; [exact Hin |]).
    - destruct H as [Hc Ho]. apply concerns_spec in Hc as (Hs & Hdate & Hst).
      apply overlap_proposed in Ho; auto.
      exact (conj Hs (conj Hdate (conj Hst Ho))).
    - destruct H as (Hs & Hdate & Hst & Ho). split.
      + apply concerns_spec; auto.
      + apply overlap_proposed; auto. }
  split; [exact Hiff |]. split; [| reflexivity].
  intros Hnone. apply not_false_iff_true. rewrite Hiff.
  intros (a & Hin & Hc). exact (Hnone a Hin Hc).
Qed.

Lemma isTimeSlotAvailable_false_iff_witness :
  isTimeSlotAvailable "09:30" 30
    [SampleHost.booking "09:00" (Some "10:00") confirmed]
    "staff-1" "2025-07-14" = false
  <-> exists a,
        In a [SampleHost.booking "09:00" (Some "10:00") confirmed]
        /\ conflictsWith "09:30" 30 "staff-1" "2025-07-14" a.
Proof.
  refine (proj1 (isTimeSlotAvailable_false_iff "09:30" 30
           [SampleHost.booking "09:00" (Some "10:00") confirmed]
           "staff-1" "2025-07-14" _ _ _)).
  - reflexivity.
  - lia.
  - constructor; [| constructor].
    split; [reflexivity |].
    intros e [= <-]. reflexivity.
Defined.

(** C5. Cancelled appointments never cause a conflict: two appointment
    lists with the same appointments that are not cancelled, in the same
    order, give the same answer, so adding or removing cancelled
    appointments changes nothing; and a single cancelled appointment from
    09:00 to 10:00 leaves 09:00 for 60 minutes available. *)
Theorem isTimeSlotAvailable_ignores_cancelled :
  (forall proposedStartTime serviceDuration l1 l2 staffId date,
     List.filter notCancelled l1 = List.filter notCancelled l2 ->
     isTimeSlotAvailable proposedStartTime serviceDuration l1 staffId date
     = isTimeSlotAvailable proposedStartTime serviceDuration l2 staffId date)
  /\ (forall proposedStartTime serviceDuration before c after staffId date,
        Appointment.status c = cancelled ->
        isTimeSlotAvailable proposedStartTime serviceDuration
          (before ++ c :: after) staffId date
        = isTimeSlotAvailable proposedStartTime serviceDuration
            (before ++ after) staffId date)
  /\ (forall staffId date endTime,
        isTimeSlotAvailable "09:00" 60
          [Appointment.make "a1" staffId date "09:00" endTime cancelled]
          staffId date = true).
Proof.
  assert (Hgen : forall proposedStartTime serviceDuration l1 l2 staffId date,
     List.filter notCancelled l1 = List.filter notCancelled l2 ->
     isTimeSlotAvailable proposedStartTime serviceDuration l1 staffId date
     = isTimeSlotAvailable proposedStartTime serviceDuration l2 staffId date).
  { intros p d l1 l2 staffId date Hsame. unfold isTimeSlotAvailable.
    rewrite <- (scanAppointments_filter _ _ _ _ l1).
    rewrite <- (scanAppointments_filter _ _ _ _ l2).
    now rewrite Hsame. }
  split; [exact Hgen |]. split.
  - intros p d before c after staffId date Hc. apply Hgen.
    rewrite !List.filter_app. simpl.
    unfold notCancelled at 2. now rewrite Hc.
  - intros staffId date endTime.
    apply (Hgen "09:00" 60 _ [] staffId date). reflexivity.
Qed.

Lemma isTimeSlotAvailable_ignores_cancelled_witness :
  isTimeSlotAvailable "09:00" 60
    [SampleHost.booking "09:00" (Some "10:00") cancelled;
     SampleHost.booking "11:00" (Some "12:00") confirmed]
    "staff-1" "2025-07-14"
  = isTimeSlotAvailable "09:00" 60
      [SampleHost.booking "11:00" (Some "12:00") confirmed]
      "staff-1" "2025-07-14".
Proof.
  apply (proj1 isTimeSlotAvailable_ignores_cancelled). reflexivity.
Defined.

(** C9. An appointment whose [endTime] is the empty string is treated like
    one without [endTime]: its end is its [time] plus 60 minutes, which is
    the end the overlap test uses, and the answer of [isTimeSlotAvailable]
    is the same for both, wherever the appointment stands in the list. *)
Theorem empty_endTime_falls_back (proposedStartTime : string)
  (serviceDuration : Z) (before after : list Appointment.t)
  (a : Appointment.t) (staffId date : string) :
  appointmentEndTime (withEndTime (Some EmptyString) a)
    = getAppointmentEndTime (Appointment.time a) 60
  /\ appointmentEndTime (withEndTime None a)
    = getAppointmentEndTime (Appointment.time a) 60
  /\ isTimeSlotAvailable proposedStartTime serviceDuration
       (before ++ withEndTime (Some EmptyString) a :: after) staffId date
     = isTimeSlotAvailable proposedStartTime serviceDuration
         (before ++ withEndTime None a :: after) staffId date
  /\ (isClockTime (Appointment.time a) = true ->
      appointmentEndTime (withEndTime (Some EmptyString) a)
        = minutesToTime (Int (clockMinutes (Appointment.time a) + 60))
      /\ timeToMinutes (appointmentEndTime (withEndTime (Some EmptyString) a))
         = Int (clockMinutes (Appointment.time a) + 60))
  /\ (isClockTime (Appointment.time a) = true ->
      isClockTime proposedStartTime = true ->
      0 < serviceDuration ->
      (isTimeSlotAvailable proposedStartTime serviceDuration
         [withEndTime (Some EmptyString) a] staffId date = false
       <-> blocksFor staffId date a
           /\ rangesOverlap (clockMinutes proposedStartTime)
                (clockMinutes proposedStartTime + serviceDuration)
                (clockMinutes (Appointment.time a))
                (clockMinutes (Appointment.time a) + 60))).
Proof.
  split; [reflexivity |]. split; [reflexivity |].
  split;
    [unfold isTimeSlotAvailable; apply scanAppointments_pointwise;
     reflexivity |].
  assert (Hend : isClockTime (Appointment.time a) = true ->
    appointmentEndTime (withEndTime (Some EmptyString) a)
      = minutesToTime (Int (clockMinutes (Appointment.time a) + 60))
    /\ timeToMinutes (appointmentEndTime (withEndTime (Some EmptyString) a))
       = Int (clockMinutes (Appointment.time a) + 60)).
  { intros Hct. destruct (timeToMinutes_isClockTime _ Hct) as [Ht Hpos].
    change (appointmentEndTime (withEndTime (Some EmptyString) a))
      with (getAppointmentEndTime (Appointment.time a) 60).
    split.
    - unfold getAppointmentEndTime. now rewrite Ht.
    - apply getAppointmentEndTime_minutes; [exact Hct | lia]. }
  split; [exact Hend |].
  intros Hct Hp Hd. destruct (Hend Hct) as [_ Hminutes].
  destruct (timeToMinutes_isClockTime _ Hp) as [Ep Hpos].
  destruct (timeToMinutes_isClockTime _ Hct) as [Et _].
  assert (Hover :
    doTimeRangesOverlap proposedStartTime
      (getAppointmentEndTime proposedStartTime serviceDuration)
      (Appointment.time a)
      (appointmentEndTime (withEndTime (Some EmptyString) a)) = true
    <-> rangesOverlap (clockMinutes proposedStartTime)
          (clockMinutes proposedStartTime + serviceDuration)
          (clockMinutes (Appointment.time a))
          (clockMinutes (Appointment.time a) + 60)).
  { unfold doTimeRangesOverlap, rangesOverlap.
    rewrite Ep, Et, Hminutes.
    rewrite getAppointmentEndTime_minutes by (assumption || lia).
    cbn [lt]. rewrite andb_true_iff, !Z.ltb_lt. reflexivity. }
  unfold isTimeSlotAvailable. rewrite scanAppointments_false_iff. split.
  - intros (b & [<- | []] & Hc & Ho).
    apply concerns_spec in Hc. apply Hover in Ho. split; assumption.
  - intros [Hb Ho]. exists (withEndTime (Some EmptyString) a).
    split; [now left |]. split.
    + apply concerns_spec. exact Hb.
    + apply Hover. exact Ho.
Qed.

Lemma empty_endTime_falls_back_witness :
  (appointmentEndTime
     (withEndTime (Some EmptyString)
        (SampleHost.booking "09:00" (Some "09:10") confirmed))
   = minutesToTime (Int (clockMinutes "09:00" + 60))
   /\ timeToMinutes
        (appointmentEndTime
           (withEndTime (Some EmptyString)
              (SampleHost.booking "09:00" (Some "09:10") confirmed)))
      = Int (clockMinutes "09:00" + 60))
  /\ (isTimeSlotAvailable "09:30" 30
        [withEndTime (Some EmptyString)
           (SampleHost.booking "09:00" (Some "09:10") confirmed)]
        "staff-1" "2025-07-14" = false
      <-> blocksFor "staff-1" "2025-07-14"
            (SampleHost.booking "09:00" (Some "09:10") confirmed)
          /\ rangesOverlap (clockMinutes "09:30") (clockMinutes "09:30" + 30)
               (clockMinutes "09:00") (clockMinutes "09:00" + 60)).
Proof.
  destruct (empty_endTime_falls_back "09:30" 30 [] []
              (SampleHost.booking "09:00" (Some "09:10") confirmed)
              "staff-1" "2025-07-14") as (_ & _ & _ & Hend & Hcheck).
  split.
  - apply Hend. reflexivity.
  - apply Hcheck; [reflexivity | reflexivity | lia].
Defined.

Lemma clockMinutes_minutesToTime (minute : Z) :
  0 <= minute -> clockMinutes (minutesToTime (Int minute)) = minute.
Proof.
  intros Hm. unfold clockMinutes.
  now rewrite timeToMinutes_minutesToTime.
Qed.

(** ** The half-hour grid *)




(** ** Dates of the slot loop *)

Section HostFacts.

Variable timezoneOffset : Z.
Variable weekdayOf : string -> string.

(** A valid local time on 2000-01-01 is a clock time up to 24:00, and its
    time value is that many minutes after local midnight. *)
Lemma localTimeOn2000_Int (t : string) (v : Z) :
  localTimeOn2000 timezoneOffset t = Int v ->
  isClockTime t = true
  /\ 0 <= clockMinutes t <= 1440
  /\ v = utc2000 + (timezoneOffset + clockMinutes t) * msPerMinute.
Proof.
  unfold localTimeOn2000, isClockTime, clockMinutes.
  destruct (clockFields t) as [[h m] |] eqn:Hf; [| discriminate].
  rewrite (timeToMinutes_clock t h m Hf).
  destruct (clockFields_shape t h m Hf) as (_ & _ & _ & _ & _ & _ & _ & Hh & Hm).
  destruct (((h <=? 23) && (m <=? 59)) || ((h =? 24) && (m =? 0))) eqn:Hrange;
    [| discriminate].
  unfold TimeClip.
  destruct (Z.abs _ <=? 8640000000000000); [| discriminate].
  intros [= <-]. split; [reflexivity |]. split; [| f_equal; lia].
  apply orb_true_iff in Hrange as [Hr | Hr];
    apply andb_true_iff in Hr as [Hr1 Hr2]; lia.
Qed.

(** Within the day, the first five characters of [toTimeString] are the
    clock string of the minute of the day. *)
Lemma toTimeString5_minute (minute : Z) :
  0 <= minute < 1440 ->
  toTimeString5 timezoneOffset
    (utc2000 + (timezoneOffset + minute) * msPerMinute)
  = minutesToTime (Int minute).
Proof.
  intros Hm. unfold toTimeString5, utc2000, msPerMinute.
  replace (946684800000 + (timezoneOffset + minute) * 60000
           - timezoneOffset * 60000)
    with ((minute + 10957 * 1440) * 60000) by lia.
  rewrite Z.div_mul by lia.
  rewrite Z.mod_add, Z.mod_small by lia.
  now rewrite minutesToTime_nonneg by lia.
Qed.

(** ** The loop over candidates *)


Lemma slotFuel_enough (start end_ : Z) :
  end_ <= start + slotStep * Z.of_nat (slotFuel start end_).
Proof.
  unfold slotFuel, slotStep, msPerMinute.
  change (30 * 60000) with 1800000.
  pose proof (Z.div_mod (end_ - start) 1800000 ltac:(lia)) as Hdm.
  pose proof (Z.mod_pos_bound (end_ - start) 1800000 ltac:(lia)) as Hb.
  destruct (Z.le_gt_cases 0 ((end_ - start) / 1800000 + 1)) as [Hpos | Hneg].
  - rewrite Z2Nat.id by exact Hpos. lia.
  - rewrite Z2Nat.nonpos by lia. lia.
Qed.

(** Every slot of the loop is a candidate [k] steps after the first, before
    the end, whose service ends by the end, and which is free. *)
Lemma slotLoop_In (fuel : nat) (time end_ d : Z)
  (appts : list Appointment.t) (staffId date slot : string) :
  In slot (slotLoop timezoneOffset fuel time end_ d appts staffId date) ->
  exists k : nat,
    let candidate := time + slotStep * Z.of_nat k in
    candidate < end_
    /\ le (TimeClip (candidate + d * msPerMinute)) (Int end_) = true
    /\ slot = toTimeString5 timezoneOffset candidate
    /\ isTimeSlotAvailable slot d appts staffId date = true.
Proof.
  revert time. induction fuel as [| fuel IH]; intros time; simpl; [tauto |].
  destruct (Z.ltb_spec time end_) as [Hlt | Hge]; [| intros []].
  assert (Hlater :
    In slot (slotLoop timezoneOffset fuel (time + slotStep) end_ d
               appts staffId date) ->
    exists k : nat,
      let candidate := time + slotStep * Z.of_nat k in
      candidate < end_
      /\ le (TimeClip (candidate + d * msPerMinute)) (Int end_) = true
      /\ slot = toTimeString5 timezoneOffset candidate
      /\ isTimeSlotAvailable slot d appts staffId date = true).
  { intros Hin. destruct (IH _ Hin) as (k & Hk). exists (S k).
    cbv zeta in *.
    replace (time + slotStep * Z.of_nat (S k))
      with (time + slotStep + slotStep * Z.of_nat k) by lia.
    exact Hk. }
  destruct (le (TimeClip (time + d * msPerMinute)) (Int end_)
            && isTimeSlotAvailable (toTimeString5 timezoneOffset time) d
                 appts staffId date) eqn:Hkeep; [| exact Hlater].
  intros [<- | Hin]; [| exact (Hlater Hin)].
  apply andb_true_iff in Hkeep as [Hfit Hfree].
  exists 0%nat. cbv zeta. rewrite Z.mul_0_r, Z.add_0_r. auto.
Qed.

(** Conversely no candidate is lost: with fuel to reach the end, a candidate
    that is before the end, fits and is free is in the result. *)
Lemma slotLoop_complete (fuel : nat) (time end_ d : Z)
  (appts : list Appointment.t) (staffId date : string) (k : nat) :
  end_ <= time + slotStep * Z.of_nat fuel ->
  time + slotStep * Z.of_nat k < end_ ->
  le (TimeClip (time + slotStep * Z.of_nat k + d * msPerMinute)) (Int end_)
    = true ->
  isTimeSlotAvailable
    (toTimeString5 timezoneOffset (time + slotStep * Z.of_nat k)) d
    appts staffId date = true ->
  In (toTimeString5 timezoneOffset (time + slotStep * Z.of_nat k))
     (slotLoop timezoneOffset fuel time end_ d appts staffId date).
Proof.
  assert (Hstep : 0 < slotStep) by reflexivity.
  revert fuel time. induction k as [| k IH]; intros fuel time Hfuel.
  - rewrite Z.mul_0_r, Z.add_0_r. intros Hlt Hfit Hfree.
    destruct fuel as [| fuel]; [simpl in Hfuel; lia |].
    simpl. destruct (Z.ltb_spec time end_); [| lia].
    rewrite Hfit, Hfree. now left.
  - replace (time + slotStep * Z.of_nat (S k))
      with (time + slotStep + slotStep * Z.of_nat k) by lia.
    intros Hlt Hfit Hfree.
    destruct fuel as [| fuel]; [simpl in Hfuel; nia |].
    assert (Hin : In (toTimeString5 timezoneOffset
                        (time + slotStep + slotStep * Z.of_nat k))
                     (slotLoop timezoneOffset fuel (time + slotStep) end_ d
                        appts staffId date))
      by (apply IH; [lia | assumption ..]).
    simpl. destruct (Z.ltb_spec time end_); [| nia].
    destruct (le _ _ && isTimeSlotAvailable _ _ _ _ _); [now right | exact Hin].
Qed.

(** The fit test on dates, read in minutes. *)
Lemma fit_minutes (minute closing d : Z) :
  le (TimeClip (utc2000 + (timezoneOffset + minute) * msPerMinute
                + d * msPerMinute))
     (Int (utc2000 + (timezoneOffset + closing) * msPerMinute)) = true ->
  minute + d <= closing.
Proof.
  unfold TimeClip, msPerMinute.
  destruct (Z.abs _ <=? 8640000000000000); [| discriminate].
  cbn [le]. intros H. apply Z.leb_le in H. lia.
Qed.

(** What membership in the result of the enumeration means, in minutes of
    the day. *)
Lemma generateAvailableTimeSlots_In (date : string)
  (staffMember : StaffMember.t) (service : Service.t)
  (appts : list Appointment.t) (slot : string) :
  In slot (generateAvailableTimeSlots timezoneOffset weekdayOf date
             staffMember service appts) ->
  exists (availability : DayAvailability.t) (k : nat),
    StaffMember.availability staffMember !! weekdayOf date = Some availability
    /\ DayAvailability.available availability = true
    /\ isClockTime (DayAvailability.start availability) = true
    /\ isClockTime (DayAvailability.end_ availability) = true
    /\ 0 <= clockMinutes (DayAvailability.start availability)
    /\ clockMinutes (DayAvailability.end_ availability) <= 1440
    /\ clockMinutes (DayAvailability.start availability) + 30 * Z.of_nat k
       < clockMinutes (DayAvailability.end_ availability)
    /\ clockMinutes (DayAvailability.start availability) + 30 * Z.of_nat k
       + Service.duration service
       <= clockMinutes (DayAvailability.end_ availability)
    /\ slot = minutesToTime
         (Int (clockMinutes (DayAvailability.start availability)
               + 30 * Z.of_nat k))
    /\ isTimeSlotAvailable slot (Service.duration service) appts
         (StaffMember.id staffMember) date = true.
Proof.
  unfold generateAvailableTimeSlots.
  destruct (StaffMember.availability staffMember !! weekdayOf date)
    as [av |] eqn:Hday; [| intros []].
  destruct (DayAvailability.available av) eqn:Hav; [| intros []].
  cbn [negb].
  destruct (localTimeOn2000 timezoneOffset (DayAvailability.start av))
    as [| s] eqn:Hs; [intros [] |].
  destruct (localTimeOn2000 timezoneOffset (DayAvailability.end_ av))
    as [| e] eqn:He; [intros [] |].
  apply localTimeOn2000_Int in Hs as (Hcs & Hrs & ->).
  apply localTimeOn2000_Int in He as (Hce & Hre & ->).
  intros Hin. apply slotLoop_In in Hin as (k & Hlt & Hfit & Hslot & Hfree).
  set (S0 := clockMinutes (DayAvailability.start av)) in *.
  set (E0 := clockMinutes (DayAvailability.end_ av)) in *.
  assert (Hcand :
    utc2000 + (timezoneOffset + S0) * msPerMinute + slotStep * Z.of_nat k
    = utc2000 + (timezoneOffset + (S0 + 30 * Z.of_nat k)) * msPerMinute)
    by (unfold slotStep, msPerMinute; lia).
  rewrite Hcand in Hlt, Hfit, Hslot.
  assert (Hbefore : S0 + 30 * Z.of_nat k < E0)
    by (unfold msPerMinute in Hlt; lia).
  rewrite toTimeString5_minute in Hslot by lia.
  apply fit_minutes in Hfit.
  exists av, k. repeat split; try assumption; lia.
Qed.


(** ** Claims about the enumeration *)

(** C4. Fit check: for every date, staff member, service and appointment
    list, a start time returned by [generateAvailableTimeSlots] is a clock
    time whose minutes plus the service's duration do not exceed the
    minutes of the end time configured for that day. *)
Theorem generateAvailableTimeSlots_fit (date : string)
  (staffMember : StaffMember.t) (service : Service.t)
  (existingAppointments : list Appointment.t)
  (availability : DayAvailability.t) (slot : string) :
  StaffMember.availability staffMember !! weekdayOf date = Some availability ->
  In slot (generateAvailableTimeSlots timezoneOffset weekdayOf date
             staffMember service existingAppointments) ->
  timeToMinutes slot = Int (clockMinutes slot)
  /\ timeToMinutes (DayAvailability.end_ availability)
     = Int (clockMinutes (DayAvailability.end_ availability))
  /\ clockMinutes slot + Service.duration service
     <= clockMinutes (DayAvailability.end_ availability).
Proof.
  intros Hday Hin.
  apply generateAvailableTimeSlots_In in Hin
    as (av & k & Hday' & _ & _ & Hce & Hs0 & _ & _ & Hfit & -> & _).
  rewrite Hday in Hday'. injection Hday' as <-.
  rewrite clockMinutes_minutesToTime by lia.
  split; [now rewrite timeToMinutes_minutesToTime by lia |].
  split; [apply timeToMinutes_isClockTime, Hce | exact Hfit].
Qed.



(** ** The loop in minutes of the day *)


Lemma localTimeOn2000_clock (t : string) (h m : Z) :
  -1440 <= timezoneOffset <= 1440 ->
  clockFields t = Some (h, m) ->
  ((h <=? 23) && (m <=? 59)) || ((h =? 24) && (m =? 0)) = true ->
  localTimeOn2000 timezoneOffset t
  = Int (utc2000 + (timezoneOffset + h * 60 + m) * msPerMinute).
Proof.
  intros Htz Hf Hrange. unfold localTimeOn2000. rewrite Hf, Hrange.
  destruct (clockFields_shape t h m Hf) as (_ & _ & _ & _ & _ & _ & _ & Hh & Hm).
  unfold TimeClip, utc2000, msPerMinute.
  destruct (Z.leb_spec
    (Z.abs (946684800000 + (timezoneOffset + h * 60 + m) * 60000))
    8640000000000000); [reflexivity | lia].
Qed.


End HostFacts.

(** ** Instances on the sample host *)

Lemma generateAvailableTimeSlots_fit_witness :
  timeToMinutes "16:00" = Int (clockMinutes "16:00")
  /\ timeToMinutes "17:00" = Int (clockMinutes "17:00")
  /\ clockMinutes "16:00" + 60 <= clockMinutes "17:00".
Proof.
  apply (generateAvailableTimeSlots_fit SampleHost.timezoneOffset
           SampleHost.weekdayOf "2025-07-14"
           (SampleHost.stylist SampleHost.nineToFive)
           (SampleHost.haircut 60) [] SampleHost.nineToFive "16:00").
  - reflexivity.
  - vm_compute. tauto.
Defined.






(** ** Worked examples *)

Example weekday_examples :
  SampleHost.weekdayOf "2025-07-14" = "monday"
  /\ SampleHost.weekdayOf "2025-07-13" = "sunday"
  /\ SampleHost.weekdayOf "2000-01-01" = "saturday".
Proof. repeat split. Qed.

Example conversion_examples :
  timeToMinutes "09:30" = Int 570
  /\ minutesToTime (Int 570) = "09:30"
  /\ getAppointmentEndTime "16:00" 60 = "17:00"
  /\ timeToMinutes "0930" = NaN
  /\ minutesToTime (Int (-30)) = "-1:-30".
Proof. repeat split. Qed.

(** A confirmed appointment from 09:00 to 10:00 blocks 09:30 and leaves the
    slot that starts when it ends. *)
Example conflict_detection :
  isTimeSlotAvailable "09:30" 30
    [SampleHost.booking "09:00" (Some "10:00") confirmed]
    "staff-1" "2025-07-14" = false
  /\ isTimeSlotAvailable "10:00" 30
       [SampleHost.booking "09:00" (Some "10:00") confirmed]
       "staff-1" "2025-07-14" = true.
Proof. split; reflexivity. Qed.

(** With 10:00 to 11:00 booked, an hour's service can start at 09:00 and
    again from 11:00. *)
Example booked_hour :
  SampleHost.slots "2025-07-14" (SampleHost.stylist SampleHost.nineToFive)
    (SampleHost.haircut 60)
    [SampleHost.booking "10:00" (Some "11:00") confirmed]
  = ["09:00"; "11:00"; "11:30"; "12:00"; "12:30"; "13:00"; "13:30"; "14:00";
     "14:30"; "15:00"; "15:30"; "16:00"].
Proof. vm_compute. reflexivity. Qed.

(** A quarter-hour service on a day that opens at 09:15. *)
Example quarter_past_slots :
  SampleHost.slots "2025-07-14"
    (SampleHost.stylist SampleHost.quarterPastNine) (SampleHost.haircut 15) []
  = ["09:15"; "09:45"; "10:15"; "10:45"; "11:15"; "11:45"; "12:15"; "12:45";
     "13:15"; "13:45"; "14:15"; "14:45"; "15:15"; "15:45"; "16:15"; "16:45"].
Proof. vm_compute. reflexivity. Qed.


(** * Further properties of the engine and of the booking flow *)

(** ** The conflict check as a predicate on the list *)

Lemma scanAppointments_true_iff (proposedStartTime proposedEndTime : string)
  (staffId date : string) (l : list Appointment.t) :
  scanAppointments proposedStartTime proposedEndTime staffId date l = true
  <->
  forall a, In a l ->
    concerns staffId date a
    && doTimeRangesOverlap proposedStartTime proposedEndTime
         (Appointment.time a) (appointmentEndTime a) = false.
Proof.
  rewrite <- not_false_iff_true, scanAppointments_false_iff. split.
  - intros Hnone a Hin. apply not_true_is_false. intros Hhit.
    apply andb_true_iff in Hhit as [Hc Ho]. apply Hnone. exists a; auto.
  - intros Hall (a & Hin & Hc & Ho). specialize (Hall a Hin).
    rewrite Hc, Ho in Hall. discriminate.
Qed.

Lemma isTimeSlotAvailable_incl (p : string) (d : Z)
  (l1 l2 : list Appointment.t) (staffId date : string) :
  (forall a, In a l1 -> In a l2) ->
  isTimeSlotAvailable p d l2 staffId date = true ->
  isTimeSlotAvailable p d l1 staffId date = true.
Proof.
  unfold isTimeSlotAvailable. rewrite !scanAppointments_true_iff.
  intros Hincl Hall a Hin. apply Hall, Hincl, Hin.
Qed.

Lemma isTimeSlotAvailable_same_elements (p : string) (d : Z)
  (l1 l2 : list Appointment.t) (staffId date : string) :
  (forall a, In a l1 <-> In a l2) ->
  isTimeSlotAvailable p d l1 staffId date
  = isTimeSlotAvailable p d l2 staffId date.
Proof.
  intros Hsame. apply eq_true_iff_eq.
  split; apply isTimeSlotAvailable_incl; intros a; apply Hsame.
Qed.

Lemma concerns_sameStaffAndDate (staffId date : string) (a : Appointment.t) :
  sameStaffAndDate staffId date a = false -> concerns staffId date a = false.
Proof.
  unfold concerns, sameStaffAndDate. intros ->. reflexivity.
Qed.

Lemma isTimeSlotAvailable_filter_staff_date (p : string) (d : Z)
  (l : list Appointment.t) (staffId date : string) :
  isTimeSlotAvailable p d (List.filter (sameStaffAndDate staffId date) l)
    staffId date
  = isTimeSlotAvailable p d l staffId date.
Proof.
  unfold isTimeSlotAvailable.
  induction l as [| a l IH]; simpl; [reflexivity |].
  destruct (sameStaffAndDate staffId date a) eqn:Hs; simpl.
  - now rewrite IH.
  - now rewrite (concerns_sameStaffAndDate _ _ _ Hs), IH.
Qed.

(** An available slot conflicts with no appointment of the list. *)
Lemma available_no_overlap (p : string) (d : Z) (l : list Appointment.t)
  (staffId date : string) (b : Appointment.t) :
  isClockTime p = true -> 0 < d -> wellFormedAppointment b ->
  isTimeSlotAvailable p d l staffId date = true ->
  In b l -> blocksFor staffId date b ->
  ~ rangesOverlap (clockMinutes p) (clockMinutes p + d)
      (clockMinutes (Appointment.time b)) (effectiveEnd b).
Proof.
  intros Hp Hd Hwf Havail Hin Hblocks Hover.
  unfold isTimeSlotAvailable in Havail.
  rewrite scanAppointments_true_iff in Havail. specialize (Havail b Hin).
  apply concerns_spec in Hblocks. apply overlap_proposed in Hover; auto.
  rewrite Hblocks, Hover in Havail. discriminate.
Qed.

Lemma rangesOverlap_sym (s1 e1 s2 e2 : Z) :
  rangesOverlap s1 e1 s2 e2 -> rangesOverlap s2 e2 s1 e1.
Proof. unfold rangesOverlap. tauto. Qed.

(** ** Edge cases of the conversions *)

Lemma append_assoc (a b c : string) : (a +:+ b) +:+ c = a +:+ (b +:+ c).
Proof.
  induction a as [| x a IH]; cbn [append]; [reflexivity |].
  cbv [append]. fold append. now rewrite IH.
Qed.

(** X9. A seconds field after a well-formed clock time is ignored by
    [timeToMinutes]: only the first two components are read. *)
Theorem timeToMinutes_ignores_seconds (t rest : string) :
  isClockTime t = true ->
  timeToMinutes (t +:+ String ":" rest) = timeToMinutes t.
Proof.
  unfold isClockTime. intros Hc.
  destruct (clockFields t) as [[h m] |] eqn:Hf; [| discriminate].
  rewrite (timeToMinutes_clock t h m Hf).
  destruct (clockFields_shape t h m Hf)
    as (hs & ms & -> & Hhs & Hms & Hh & Hm & _).
  rewrite append_assoc.
  change (String ":" ms +:+ String ":" rest)
    with (String ":" (ms +:+ String ":" rest)).
  unfold timeToMinutes. rewrite !split_digits_colon by assumption.
  cbn [map]. now rewrite Hh, Hm.
Qed.

Lemma timeToMinutes_ignores_seconds_witness :
  timeToMinutes ("09:30" +:+ String ":" "00") = timeToMinutes "09:30".
Proof.
  apply (timeToMinutes_ignores_seconds "09:30" "00"). reflexivity.
Defined.

Lemma split_noColon (s : string) :
  noColon s = true -> split ":" s = [s].
Proof.
  induction s as [| c s IH]; simpl; [reflexivity |].
  intros Hn. apply andb_true_iff in Hn as [Hc Hs].
  apply negb_true_iff in Hc. now rewrite Hc, IH.
Qed.

Lemma timeToMinutes_noColon (s : string) :
  noColon s = true -> timeToMinutes s = NaN.
Proof.
  intros Hn. unfold timeToMinutes. now rewrite split_noColon.
Qed.

(** X10. A start time without a colon has no minutes component, so its
    minute count is NaN, and it is reported available whatever the
    appointments are; likewise an appointment whose [time] has no colon
    never blocks a slot: comparisons with NaN are false, so no overlap is
    ever found. *)
Theorem time_without_colon_never_conflicts (proposedStartTime : string)
  (serviceDuration : Z) (existingAppointments : list Appointment.t)
  (staffId date : string) :
  noColon proposedStartTime = true
  \/ (forall a, In a existingAppointments ->
        noColon (Appointment.time a) = true) ->
  isTimeSlotAvailable proposedStartTime serviceDuration existingAppointments
    staffId date = true.
Proof.
  intros Hnan. unfold isTimeSlotAvailable.
  apply scanAppointments_true_iff. intros a Hin.
  apply andb_false_iff. right. unfold doTimeRangesOverlap.
  destruct Hnan as [Hp | Ha].
  - rewrite (timeToMinutes_noColon _ Hp). reflexivity.
  - rewrite (timeToMinutes_noColon _ (Ha a Hin)). apply andb_false_r.
Qed.

Lemma time_without_colon_never_conflicts_witness :
  isTimeSlotAvailable "0930" 60
    [SampleHost.booking "09:00" (Some "10:00") confirmed]
    "staff-1" "2025-07-14" = true.
Proof.
  apply (time_without_colon_never_conflicts "0930" 60). left. reflexivity.
Defined.

(** ** The enumeration as a function of the appointment list *)

Lemma ascending_NoDup (slots : list string) : ascending slots -> List.NoDup slots.
Proof.
  unfold ascending. induction 1 as [| s slots Hsorted IH Hhead].
  - constructor.
  - constructor; [| exact IH].
    intros Hin. rewrite List.Forall_forall in Hhead.
    specialize (Hhead s Hin). lia.
Qed.

Lemma nil_of_no_element {A : Type} (l : list A) :
  (forall x, ~ In x l) -> l = [].
Proof.
  destruct l as [| x l]; [reflexivity |].
  intros Hnone. exfalso. apply (Hnone x). now left.
Qed.

Section BookingFacts.

Variable timezoneOffset : Z.
Variable weekdayOf : string -> string.

Lemma slotLoop_ascending (fuel : nat) (minute closing d : Z)
  (appts : list Appointment.t) (staffId date : string) :
  0 <= minute -> closing <= 1440 ->
  ascending
    (slotLoop timezoneOffset fuel
       (utc2000 + (timezoneOffset + minute) * msPerMinute)
       (utc2000 + (timezoneOffset + closing) * msPerMinute)
       d appts staffId date)
  /\ Forall (fun s => minute <= clockMinutes s)
       (slotLoop timezoneOffset fuel
          (utc2000 + (timezoneOffset + minute) * msPerMinute)
          (utc2000 + (timezoneOffset + closing) * msPerMinute)
          d appts staffId date).
Proof.
  intros Hm Hc. revert minute Hm.
  induction fuel as [| fuel IH]; intros minute Hm.
  - split; constructor.
  - cbn [slotLoop].
    destruct (Z.ltb_spec (utc2000 + (timezoneOffset + minute) * msPerMinute)
                (utc2000 + (timezoneOffset + closing) * msPerMinute))
      as [Hlt | _]; [| split; constructor].
    assert (Hbefore : minute < closing) by (unfold msPerMinute in Hlt; lia).
    replace (utc2000 + (timezoneOffset + minute) * msPerMinute + slotStep)
      with (utc2000 + (timezoneOffset + (minute + 30)) * msPerMinute)
      by (unfold slotStep, msPerMinute; lia).
    destruct (IH (minute + 30) ltac:(lia)) as [Hsorted Hbound].
    rewrite toTimeString5_minute by lia.
    assert (Hweaker :
      Forall (fun s => minute <= clockMinutes s)
        (slotLoop timezoneOffset fuel
           (utc2000 + (timezoneOffset + (minute + 30)) * msPerMinute)
           (utc2000 + (timezoneOffset + closing) * msPerMinute)
           d appts staffId date)).
    { revert Hbound. apply List.Forall_impl. intros s Hs. lia. }
    destruct (le _ _ && isTimeSlotAvailable _ _ _ _ _);
      [| split; assumption].
    split.
    + constructor; [exact Hsorted |].
      revert Hbound. apply List.Forall_impl. intros s Hs.
      rewrite clockMinutes_minutesToTime by lia. lia.
    + constructor; [| exact Hweaker].
      rewrite clockMinutes_minutesToTime by lia. lia.
Qed.

Lemma slotLoop_incl (fuel : nat) (time end_ d : Z)
  (l1 l2 : list Appointment.t) (staffId date : string) :
  (forall ts, isTimeSlotAvailable ts d l2 staffId date = true ->
              isTimeSlotAvailable ts d l1 staffId date = true) ->
  forall slot,
    In slot (slotLoop timezoneOffset fuel time end_ d l2 staffId date) ->
    In slot (slotLoop timezoneOffset fuel time end_ d l1 staffId date).
Proof.
  intros Hmono slot. revert time.
  induction fuel as [| fuel IH]; intros time; simpl; [tauto |].
  destruct (time <? end_); [| tauto].
  destruct (le (TimeClip (time + d * msPerMinute)) (Int end_));
    cbn [andb]; [| apply IH].
  destruct (isTimeSlotAvailable (toTimeString5 timezoneOffset time) d l2
              staffId date) eqn:H2.
  - rewrite (Hmono _ H2). intros [Heq | Hin]; [now left | right; now apply IH].
  - intros Hin. apply IH in Hin.
    destruct (isTimeSlotAvailable _ d l1 staffId date); [now right | exact Hin].
Qed.

Lemma slotLoop_ext (fuel : nat) (time end_ d : Z)
  (l1 l2 : list Appointment.t) (staffId date : string) :
  (forall ts, isTimeSlotAvailable ts d l1 staffId date
              = isTimeSlotAvailable ts d l2 staffId date) ->
  slotLoop timezoneOffset fuel time end_ d l1 staffId date
  = slotLoop timezoneOffset fuel time end_ d l2 staffId date.
Proof.
  intros Hext. revert time.
  induction fuel as [| fuel IH]; intros time; simpl; [reflexivity |].
  now rewrite Hext, IH.
Qed.

Lemma generateAvailableTimeSlots_ext (date : string)
  (staffMember : StaffMember.t) (service : Service.t)
  (l1 l2 : list Appointment.t) :
  (forall ts,
     isTimeSlotAvailable ts (Service.duration service) l1
       (StaffMember.id staffMember) date
     = isTimeSlotAvailable ts (Service.duration service) l2
         (StaffMember.id staffMember) date) ->
  generateAvailableTimeSlots timezoneOffset weekdayOf date staffMember
    service l1
  = generateAvailableTimeSlots timezoneOffset weekdayOf date staffMember
      service l2.
Proof.
  intros Hext. unfold generateAvailableTimeSlots.
  destruct (StaffMember.availability staffMember !! weekdayOf date)
    as [av |]; [| reflexivity].
  destruct (negb (DayAvailability.available av)); [reflexivity |].
  destruct (localTimeOn2000 timezoneOffset (DayAvailability.start av));
    [reflexivity |].
  destruct (localTimeOn2000 timezoneOffset (DayAvailability.end_ av));
    [reflexivity |].
  now apply slotLoop_ext.
Qed.

Lemma localTimeOn2000_timeOfDay (t : string) :
  -1440 <= timezoneOffset <= 1440 -> isTimeOfDay t = true ->
  localTimeOn2000 timezoneOffset t
  = Int (utc2000 + (timezoneOffset + clockMinutes t) * msPerMinute)
  /\ 0 <= clockMinutes t <= 1440.
Proof.
  unfold isTimeOfDay. intros Htz Hvalid.
  destruct (clockFields t) as [[h m] |] eqn:Hf; [| discriminate].
  rewrite (localTimeOn2000_clock timezoneOffset t h m Htz Hf Hvalid).
  unfold clockMinutes. rewrite (timeToMinutes_clock t h m Hf).
  destruct (clockFields_shape t h m Hf) as (_ & _ & _ & _ & _ & _ & _ & Hh & Hm).
  split; [f_equal; lia |].
  apply orb_true_iff in Hvalid as [Hr | Hr];
    apply andb_true_iff in Hr as [Hr1 Hr2]; lia.
Qed.

Lemma isTimeOfDay_minutesToTime (minute : Z) :
  0 <= minute < 1440 -> isTimeOfDay (minutesToTime (Int minute)) = true.
Proof.
  intros Hm. unfold isTimeOfDay.
  rewrite clockFields_minutesToTime by lia.
  assert (minute / 60 < 24) by (apply Z.div_lt_upper_bound; lia).
  pose proof (Z.mod_pos_bound minute 60 ltac:(lia)).
  apply orb_true_iff. left. apply andb_true_iff. split; apply Z.leb_le; lia.
Qed.

(** X1. The start times returned by [generateAvailableTimeSlots] are in
    strictly ascending order, so none is repeated, and each is a valid
    time of day from 00:00 to 23:59, never 24:00, written as
    [minutesToTime] writes its minute count. *)
Theorem generateAvailableTimeSlots_ascending (date : string)
  (staffMember : StaffMember.t) (service : Service.t)
  (existingAppointments : list Appointment.t) :
  let result :=
    generateAvailableTimeSlots timezoneOffset weekdayOf date staffMember
      service existingAppointments in
  ascending result /\ List.NoDup result
  /\ Forall (fun slot =>
              isTimeOfDay slot = true
              /\ 0 <= clockMinutes slot <= 1439
              /\ slot = minutesToTime (Int (clockMinutes slot))) result.
Proof.
  intros result.
  assert (Hasc : ascending result).
  { subst result. unfold generateAvailableTimeSlots.
    destruct (StaffMember.availability staffMember !! weekdayOf date)
      as [av |]; [| constructor].
    destruct (negb (DayAvailability.available av)); [constructor |].
    destruct (localTimeOn2000 timezoneOffset (DayAvailability.start av))
      as [| s] eqn:Hs; [constructor |].
    destruct (localTimeOn2000 timezoneOffset (DayAvailability.end_ av))
      as [| e] eqn:He; [constructor |].
    apply localTimeOn2000_Int in Hs as (_ & Hrs & ->).
    apply localTimeOn2000_Int in He as (_ & Hre & ->).
    apply slotLoop_ascending; lia. }
  split; [exact Hasc |]. split; [now apply ascending_NoDup |].
  apply List.Forall_forall. intros slot Hin.
  apply generateAvailableTimeSlots_In in Hin
    as (av & k & _ & _ & _ & _ & Hs0 & He0 & Hlt & _ & -> & _).
  rewrite clockMinutes_minutesToTime by lia.
  split; [apply isTimeOfDay_minutesToTime; lia |].
  split; [lia | reflexivity].
Qed.

(** X2. A start time offered by [generateAvailableTimeSlots] passes the
    final availability check the booking handlers make before they create
    the appointment, as long as the appointment list is the same. *)
Theorem offered_slot_passes_final_check (date : string)
  (staffMember : StaffMember.t) (service : Service.t)
  (existingAppointments : list Appointment.t) (slot : string) :
  In slot (generateAvailableTimeSlots timezoneOffset weekdayOf date
             staffMember service existingAppointments) ->
  isTimeSlotAvailable slot (Service.duration service) existingAppointments
    (StaffMember.id staffMember) date = true.
Proof.
  intros Hin.
  apply generateAvailableTimeSlots_In in Hin
    as (av & k & _ & _ & _ & _ & _ & _ & _ & _ & _ & Hfree).
  exact Hfree.
Qed.

(** X3. More appointments never give more slots: when every appointment of
    one list is also in another, each start time offered with the larger
    list is offered with the smaller one; in particular every offered start
    time is among those offered with no appointments at all. *)
Theorem generateAvailableTimeSlots_antitone (date : string)
  (staffMember : StaffMember.t) (service : Service.t)
  (l1 l2 : list Appointment.t) (slot : string) :
  (forall a, In a l1 -> In a l2) ->
  In slot (generateAvailableTimeSlots timezoneOffset weekdayOf date
             staffMember service l2) ->
  In slot (generateAvailableTimeSlots timezoneOffset weekdayOf date
             staffMember service l1)
  /\ In slot (generateAvailableTimeSlots timezoneOffset weekdayOf date
                staffMember service []).
Proof.
  intros Hincl.
  assert (Hgen : forall small big,
    (forall a, In a small -> In a big) ->
    In slot (generateAvailableTimeSlots timezoneOffset weekdayOf date
               staffMember service big) ->
    In slot (generateAvailableTimeSlots timezoneOffset weekdayOf date
               staffMember service small)).
  { intros small big Hsub. unfold generateAvailableTimeSlots.
    destruct (StaffMember.availability staffMember !! weekdayOf date)
      as [av |]; [| tauto].
    destruct (negb (DayAvailability.available av)); [tauto |].
    destruct (localTimeOn2000 timezoneOffset (DayAvailability.start av));
      [tauto |].
    destruct (localTimeOn2000 timezoneOffset (DayAvailability.end_ av));
      [tauto |].
    apply slotLoop_incl. intros ts. now apply isTimeSlotAvailable_incl. }
  intros Hin. split.
  - exact (Hgen l1 l2 Hincl Hin).
  - apply (Hgen [] l2); [intros a [] | exact Hin].
Qed.

(** No eligible candidate is dropped. *)
Lemma generateAvailableTimeSlots_complete (date : string)
  (staffMember : StaffMember.t) (service : Service.t)
  (existingAppointments : list Appointment.t)
  (availability : DayAvailability.t) (k : nat) :
  -1440 <= timezoneOffset <= 1440 ->
  StaffMember.availability staffMember !! weekdayOf date = Some availability ->
  DayAvailability.available availability = true ->
  isTimeOfDay (DayAvailability.start availability) = true ->
  isTimeOfDay (DayAvailability.end_ availability) = true ->
  -1000000000 <= Service.duration service ->
  clockMinutes (DayAvailability.start availability) + 30 * Z.of_nat k
    < clockMinutes (DayAvailability.end_ availability) ->
  clockMinutes (DayAvailability.start availability) + 30 * Z.of_nat k
    + Service.duration service
    <= clockMinutes (DayAvailability.end_ availability) ->
  isTimeSlotAvailable
    (minutesToTime
       (Int (clockMinutes (DayAvailability.start availability)
             + 30 * Z.of_nat k)))
    (Service.duration service) existingAppointments
    (StaffMember.id staffMember) date = true ->
  In (minutesToTime
        (Int (clockMinutes (DayAvailability.start availability)
              + 30 * Z.of_nat k)))
     (generateAvailableTimeSlots timezoneOffset weekdayOf date staffMember
        service existingAppointments).
Proof.
  intros Htz Hday Hav Hstart Hend Hd Hlt Hfit Hfree.
  destruct (localTimeOn2000_timeOfDay _ Htz Hstart) as [Hs Hrs].
  destruct (localTimeOn2000_timeOfDay _ Htz Hend) as [He Hre].
  unfold generateAvailableTimeSlots. rewrite Hday, Hav, Hs, He.
  cbn [negb].
  set (S0 := clockMinutes (DayAvailability.start availability)) in *.
  set (E0 := clockMinutes (DayAvailability.end_ availability)) in *.
  assert (Hcand :
    utc2000 + (timezoneOffset + S0) * msPerMinute + slotStep * Z.of_nat k
    = utc2000 + (timezoneOffset + (S0 + 30 * Z.of_nat k)) * msPerMinute)
    by (unfold slotStep, msPerMinute; lia).
  assert (Hstring :
    toTimeString5 timezoneOffset
      (utc2000 + (timezoneOffset + S0) * msPerMinute
       + slotStep * Z.of_nat k)
    = minutesToTime (Int (S0 + 30 * Z.of_nat k))).
  { now rewrite Hcand, toTimeString5_minute by lia. }
  rewrite <- Hstring.
  apply slotLoop_complete.
  - apply slotFuel_enough.
  - rewrite Hcand. unfold msPerMinute. lia.
  - rewrite Hcand. unfold TimeClip, utc2000, msPerMinute.
    destruct (Z.leb_spec
      (Z.abs (946684800000
              + (timezoneOffset + (S0 + 30 * Z.of_nat k)) * 60000
              + Service.duration service * 60000))
      8640000000000000) as [_ | Hclip]; [| lia].
    cbn [le]. apply Z.leb_le. lia.
  - rewrite Hstring. exact Hfree.
Qed.

(** X4. Exactly the eligible candidates are returned.  For a host within a
    day of UTC, a day that is available with valid start and end times, and
    a duration that is not absurdly negative, a string is in the result if
    and only if it is the clock string of the start plus [k] half hours, for
    some [k], that lies before the end, whose service ends by the end, and
    that [isTimeSlotAvailable] accepts. *)
Theorem generateAvailableTimeSlots_exactly (date : string)
  (staffMember : StaffMember.t) (service : Service.t)
  (existingAppointments : list Appointment.t)
  (availability : DayAvailability.t) (slot : string) :
  -1440 <= timezoneOffset <= 1440 ->
  StaffMember.availability staffMember !! weekdayOf date = Some availability ->
  DayAvailability.available availability = true ->
  isTimeOfDay (DayAvailability.start availability) = true ->
  isTimeOfDay (DayAvailability.end_ availability) = true ->
  -1000000000 <= Service.duration service ->
  In slot (generateAvailableTimeSlots timezoneOffset weekdayOf date
             staffMember service existingAppointments)
  <->
  exists k : nat,
    let minute :=
      clockMinutes (DayAvailability.start availability) + 30 * Z.of_nat k in
    slot = minutesToTime (Int minute)
    /\ minute < clockMinutes (DayAvailability.end_ availability)
    /\ minute + Service.duration service
       <= clockMinutes (DayAvailability.end_ availability)
    /\ isTimeSlotAvailable slot (Service.duration service)
         existingAppointments (StaffMember.id staffMember) date = true.
Proof.
  intros Htz Hday Hav Hstart Hend Hd. split.
  - intros Hin.
    apply generateAvailableTimeSlots_In in Hin
      as (av & k & Hday' & _ & _ & _ & _ & _ & Hlt & Hfit & Hslot & Hfree).
    rewrite Hday in Hday'. injection Hday' as <-.
    exists k. cbv zeta. auto.
  - intros (k & Hslot & Hlt & Hfit & Hfree). cbv zeta in *.
    rewrite Hslot in Hfree |- *.
    now apply (generateAvailableTimeSlots_complete date staffMember service
                 existingAppointments availability k).
Qed.

(** X5. No room, no slots: when the end of the day's window is not after
    its start, or the window is shorter than the service, the result is
    empty. *)
Theorem generateAvailableTimeSlots_no_room (date : string)
  (staffMember : StaffMember.t) (service : Service.t)
  (existingAppointments : list Appointment.t)
  (availability : DayAvailability.t) :
  StaffMember.availability staffMember !! weekdayOf date = Some availability ->
  clockMinutes (DayAvailability.end_ availability)
    <= clockMinutes (DayAvailability.start availability)
  \/ clockMinutes (DayAvailability.end_ availability)
     - clockMinutes (DayAvailability.start availability)
     < Service.duration service ->
  generateAvailableTimeSlots timezoneOffset weekdayOf date staffMember
    service existingAppointments = [].
Proof.
  intros Hday Hroom. apply nil_of_no_element. intros slot Hin.
  apply generateAvailableTimeSlots_In in Hin
    as (av & k & Hday' & _ & _ & _ & _ & _ & Hlt & Hfit & _ & _).
  rewrite Hday in Hday'. injection Hday' as <-. lia.
Qed.

(** X6. A start or end written as HH:MM that is not a time of day (an hour
    above 23 other than 24:00, or minutes above 59) makes an invalid date,
    and the result is empty. *)
Theorem generateAvailableTimeSlots_invalid_window (date : string)
  (staffMember : StaffMember.t) (service : Service.t)
  (existingAppointments : list Appointment.t)
  (availability : DayAvailability.t) :
  StaffMember.availability staffMember !! weekdayOf date = Some availability ->
  isClockTime (DayAvailability.start availability) = true ->
  isClockTime (DayAvailability.end_ availability) = true ->
  isTimeOfDay (DayAvailability.start availability) = false
  \/ isTimeOfDay (DayAvailability.end_ availability) = false ->
  generateAvailableTimeSlots timezoneOffset weekdayOf date staffMember
    service existingAppointments = [].
Proof.
  intros Hday _ _ Hbad. unfold generateAvailableTimeSlots. rewrite Hday.
  destruct (negb (DayAvailability.available availability)); [reflexivity |].
  assert (Hnan : forall t, isTimeOfDay t = false ->
                   localTimeOn2000 timezoneOffset t = NaN).
  { intros t. unfold isTimeOfDay, localTimeOn2000.
    destruct (clockFields t) as [[h m] |]; [| reflexivity].
    now intros ->. }
  destruct Hbad as [Hs | He].
  - now rewrite (Hnan _ Hs).
  - rewrite (Hnan _ He).
    now destruct (localTimeOn2000 timezoneOffset
                    (DayAvailability.start availability)).
Qed.

(** X7. The order of the appointment list, and repetitions in it, do not
    matter: two lists with the same appointments give the same answer of
    [isTimeSlotAvailable] and the same slots. *)
Theorem engine_ignores_list_order (date : string)
  (staffMember : StaffMember.t) (service : Service.t)
  (l1 l2 : list Appointment.t) :
  (forall a, In a l1 <-> In a l2) ->
  (forall proposedStartTime serviceDuration staffId date',
     isTimeSlotAvailable proposedStartTime serviceDuration l1 staffId date'
     = isTimeSlotAvailable proposedStartTime serviceDuration l2 staffId date')
  /\ generateAvailableTimeSlots timezoneOffset weekdayOf date staffMember
       service l1
     = generateAvailableTimeSlots timezoneOffset weekdayOf date staffMember
         service l2.
Proof.
  intros Hsame. split.
  - intros p d staffId date'. now apply isTimeSlotAvailable_same_elements.
  - apply generateAvailableTimeSlots_ext. intros ts.
    now apply isTimeSlotAvailable_same_elements.
Qed.

(** X8. Appointments of other staff members and of other dates never
    matter: dropping them changes neither the answer of
    [isTimeSlotAvailable] nor the slots offered. *)
Theorem engine_reads_only_same_staff_and_date (date : string)
  (staffMember : StaffMember.t) (service : Service.t)
  (existingAppointments : list Appointment.t) :
  (forall proposedStartTime serviceDuration staffId date',
     isTimeSlotAvailable proposedStartTime serviceDuration
       (List.filter (sameStaffAndDate staffId date') existingAppointments)
       staffId date'
     = isTimeSlotAvailable proposedStartTime serviceDuration
         existingAppointments staffId date')
  /\ generateAvailableTimeSlots timezoneOffset weekdayOf date staffMember
       service
       (List.filter (sameStaffAndDate (StaffMember.id staffMember) date)
          existingAppointments)
     = generateAvailableTimeSlots timezoneOffset weekdayOf date staffMember
         service existingAppointments.
Proof.
  split.
  - intros p d staffId date'. apply isTimeSlotAvailable_filter_staff_date.
  - apply generateAvailableTimeSlots_ext. intros ts.
    apply isTimeSlotAvailable_filter_staff_date.
Qed.

End BookingFacts.

(** ** The stored end time *)

Section StoredEndFacts.

Variable tza : Z -> Z.
Variable tzaLocal : Z -> Z.
Variable now : Z.

Lemma timeString5_minute (t day minute : Z) :
  t + tza t = day * supabaseHelpers.msPerDay + minute * msPerMinute ->
  supabaseHelpers.timeString5 tza t = minutesToTime (Int (minute mod 1440)).
Proof.
  intros Hlocal. unfold supabaseHelpers.timeString5. rewrite Hlocal.
  unfold supabaseHelpers.msPerDay, msPerMinute.
  replace (day * 86400000 + minute * 60000)
    with ((minute + day * 1440) * 60000) by lia.
  rewrite Z.div_mul by lia. rewrite Z.mod_add by lia.
  pose proof (Z.mod_pos_bound minute 1440 ltac:(lia)).
  now rewrite minutesToTime_nonneg by lia.
Qed.

Lemma parts_of_clock (t : string) (h m : Z) :
  clockFields t = Some (h, m) ->
  map Number (split ":" t) = [Int h; Int m].
Proof.
  intros Hf.
  destruct (clockFields_shape t h m Hf)
    as (hs & ms & -> & Hhs & Hms & Hh & Hm & _).
  rewrite split_digits_colon, split_digits by assumption.
  cbn [map]. now rewrite Hh, Hm.
Qed.

(** On a well-formed start time, with a steady clock, the stored end is the
    clock string of the end minute taken modulo one day. *)
Lemma calculateEndTime_clock (startTime : string) (d : Z) :
  steadyHost tza tzaLocal now (clockMinutes startTime) d ->
  isClockTime startTime = true ->
  -1000000000 <= d <= 1000000000 ->
  supabaseHelpers.calculateEndTime tza tzaLocal now startTime d
  = minutesToTime (Int ((clockMinutes startTime + d) mod 1440)).
Proof.
  intros Hhost Hc Hd. unfold isClockTime in Hc.
  destruct (clockFields startTime) as [[h m] |] eqn:Hf; [| discriminate].
  destruct (clockFields_shape _ h m Hf) as (_ & _ & _ & _ & _ & _ & _ & Hh & Hm).
  unfold clockMinutes in *. rewrite (timeToMinutes_clock _ h m Hf) in *.
  unfold steadyHost in Hhost. cbv zeta in Hhost.
  destruct Hhost as (Hnow & Hcall & Hoff & Hend).
  set (day := (now + tza now) / supabaseHelpers.msPerDay) in *.
  set (off := tzaLocal (day * supabaseHelpers.msPerDay
                        + (h * 60 + m) * msPerMinute)) in *.
  assert (Hday : -1 <= day <= 47484).
  { subst day. unfold supabaseHelpers.msPerDay. split.
    - apply Z.div_le_lower_bound; lia.
    - apply Z.div_le_upper_bound; lia. }
  unfold supabaseHelpers.calculateEndTime.
  rewrite (parts_of_clock _ h m Hf). cbn [List.nth].
  unfold supabaseHelpers.setHoursToday. fold day.
  replace (day * supabaseHelpers.msPerDay
           + (h * supabaseHelpers.msPerHour + m * msPerMinute))
    with (day * supabaseHelpers.msPerDay + (h * 60 + m) * msPerMinute)
    by (unfold supabaseHelpers.msPerHour, msPerMinute; lia).
  fold off.
  set (start := day * supabaseHelpers.msPerDay + (h * 60 + m) * msPerMinute
                - off) in *.
  assert (Hsv : start = day * 86400000 + (h * 60 + m) * 60000 - off)
    by reflexivity.
  unfold TimeClip.
  destruct (Z.leb_spec (Z.abs start) 8640000000000000) as [_ | Hbad];
    [| lia].
  destruct (Z.leb_spec (Z.abs (start + d * 60000)) 8640000000000000)
    as [_ | Hbad]; [| lia].
  apply (timeString5_minute _ day).
  change (d * 60000) with (d * msPerMinute). rewrite Hend.
  subst start. unfold supabaseHelpers.msPerDay, msPerMinute. lia.
Qed.

(** X11. The end time [calculateEndTime] stores is taken modulo one day:
    for a well-formed start time and a duration of at most 10^9 minutes
    either way, on a host whose clock does not change during the
    appointment, it is the clock string of the start minute plus the
    duration, reduced modulo 1440: a valid time of day, whose minute count
    is that remainder. *)
Theorem calculateEndTime_wraps (startTime : string) (durationMinutes : Z) :
  steadyHost tza tzaLocal now (clockMinutes startTime) durationMinutes ->
  isClockTime startTime = true ->
  -1000000000 <= durationMinutes <= 1000000000 ->
  supabaseHelpers.calculateEndTime tza tzaLocal now startTime
    durationMinutes
  = minutesToTime (Int ((clockMinutes startTime + durationMinutes) mod 1440))
  /\ isTimeOfDay
       (supabaseHelpers.calculateEndTime tza tzaLocal now startTime
          durationMinutes) = true
  /\ clockMinutes
       (supabaseHelpers.calculateEndTime tza tzaLocal now startTime
          durationMinutes)
     = (clockMinutes startTime + durationMinutes) mod 1440.
Proof.
  intros Hhost Hc Hd.
  rewrite (calculateEndTime_clock _ _ Hhost Hc Hd).
  pose proof (Z.mod_pos_bound (clockMinutes startTime + durationMinutes) 1440
                ltac:(lia)) as Hb.
  split; [reflexivity |]. split.
  - apply isTimeOfDay_minutesToTime. lia.
  - apply clockMinutes_minutesToTime. lia.
Qed.

(** X12. For a well-formed start time, a duration of at most 10^9 minutes
    either way and an end minute that is not negative, on a host whose
    clock does not change during the appointment, the stored end time and
    the engine's own end time agree exactly when the appointment ends
    before midnight: past midnight [getAppointmentEndTime] keeps counting
    hours (24:30) while [calculateEndTime] starts again from 00:00
    (00:30). *)
Theorem calculateEndTime_agrees_before_midnight (startTime : string)
  (durationMinutes : Z) :
  steadyHost tza tzaLocal now (clockMinutes startTime) durationMinutes ->
  isClockTime startTime = true ->
  -1000000000 <= durationMinutes <= 1000000000 ->
  0 <= clockMinutes startTime + durationMinutes ->
  supabaseHelpers.calculateEndTime tza tzaLocal now startTime
    durationMinutes
  = getAppointmentEndTime startTime durationMinutes
  <-> clockMinutes startTime + durationMinutes < 1440.
Proof.
  intros Hhost Hc Hd Hpos.
  rewrite (calculateEndTime_clock _ _ Hhost Hc Hd).
  destruct (timeToMinutes_isClockTime _ Hc) as [Hs _].
  unfold getAppointmentEndTime. rewrite Hs. cbn [add].
  set (total := clockMinutes startTime + durationMinutes) in *.
  pose proof (Z.mod_pos_bound total 1440 ltac:(lia)) as Hb.
  split.
  - intros Heq. apply (f_equal clockMinutes) in Heq.
    rewrite !clockMinutes_minutesToTime in Heq by lia. lia.
  - intros Hlt. now rewrite Z.mod_small by lia.
Qed.

(** X13. When the start time has no colon, so that its minutes component
    is missing, [calculateEndTime] stores the string "Inval", the start of
    "Invalid Date", on every host. *)
Theorem calculateEndTime_without_colon (startTime : string)
  (durationMinutes : Z) :
  noColon startTime = true ->
  supabaseHelpers.calculateEndTime tza tzaLocal now startTime
    durationMinutes = "Inval".
Proof.
  intros Hn. unfold supabaseHelpers.calculateEndTime.
  rewrite split_noColon by exact Hn. cbn [map List.nth].
  unfold supabaseHelpers.setHoursToday.
  now destruct (Number startTime).
Qed.

End StoredEndFacts.

(** ** Appointments entering and leaving the list *)

Lemma scanAppointments_app (p pe staffId date : string)
  (l1 l2 : list Appointment.t) :
  scanAppointments p pe staffId date (l1 ++ l2)
  = scanAppointments p pe staffId date l1
    && scanAppointments p pe staffId date l2.
Proof.
  induction l1 as [| a l1 IH]; simpl; [reflexivity |].
  destruct (concerns staffId date a && doTimeRangesOverlap p pe _ _);
    [reflexivity | exact IH].
Qed.

Lemma nth_error_snoc {A : Type} (l : list A) (a x : A) (i : nat) :
  List.nth_error (l ++ [a]) i = Some x ->
  List.nth_error l i = Some x \/ (i = length l /\ x = a).
Proof.
  intros Hi. destruct (Nat.lt_ge_cases i (length l)) as [Hlt | Hge].
  - left. now rewrite List.nth_error_app1 in Hi.
  - right. rewrite List.nth_error_app2 in Hi by exact Hge.
    destruct (i - length l)%nat as [| n] eqn:Hdiff.
    + injection Hi as <-. split; [lia | reflexivity].
    + destruct n; discriminate Hi.
Qed.

(** What the list holds for an appointment loaded with a well-formed end
    time. *)
Lemma transformed_with_endTime (a : Appointment.t) (e : string) :
  Appointment.endTime a = Some e -> isClockTime e = true ->
  isClockTime (Appointment.time a) = true ->
  wellFormedAppointment (transformDatabaseToUI.appointment a)
  /\ effectiveEnd (transformDatabaseToUI.appointment a) = clockMinutes e
  /\ appointmentEndTime (transformDatabaseToUI.appointment a) = e.
Proof.
  intros He Hce Hct.
  unfold transformDatabaseToUI.appointment, wellFormedAppointment,
    effectiveEnd, appointmentEndTime.
  cbn [Appointment.time Appointment.endTime]. rewrite He.
  rewrite !isClockTime_truthy by exact Hce.
  repeat split; try assumption.
  intros e' [= <-]. exact Hce.
Qed.

Lemma falsy_endTime (a : Appointment.t) (fallback : string) :
  truthy (Appointment.endTime a) = false ->
  orElse (Appointment.endTime a) fallback = fallback.
Proof.
  destruct (Appointment.endTime a) as [[| c e] |];
    [reflexivity | discriminate | reflexivity].
Qed.

Lemma scan_after_cancel (p pe staffId date id : string)
  (l : list Appointment.t) :
  scanAppointments p pe staffId date
    (operations.updateAppointment id handlers.cancelUpdates l)
  = scanAppointments p pe staffId date
      (List.filter (fun apt => negb (String.eqb (Appointment.id apt) id)) l).
Proof.
  induction l as [| a l IH]; [reflexivity |].
  cbn [operations.updateAppointment map List.filter].
  fold (operations.updateAppointment id handlers.cancelUpdates l).
  destruct (String.eqb (Appointment.id a) id); cbn [negb scanAppointments].
  - rewrite concerns_cancelled by reflexivity. exact IH.
  - now rewrite IH.
Qed.

Section FlowFacts.

Variable timezoneOffset : Z.
Variable weekdayOf : string -> string.
Variable tza : Z -> Z.
Variable tzaLocal : Z -> Z.
Variable now : Z.

(** X14. Booking a slot closes it.  Take an appointment that is not
    cancelled, for the staff member and the date in question, with a
    well-formed start time and a positive duration of at most 10^9 minutes
    that ends before midnight, and with the end time [calculateEndTime]
    stored on a host whose clock does not change during the appointment.
    Once it is added to the list, the same start time is no longer
    available for that staff member and date, and
    [generateAvailableTimeSlots] no longer offers it. *)
Theorem booked_slot_is_blocked (date : string) (staffMember : StaffMember.t)
  (service : Service.t) (appointments : list Appointment.t)
  (a : Appointment.t) :
  steadyHost tza tzaLocal now (clockMinutes (Appointment.time a))
    (Service.duration service) ->
  isClockTime (Appointment.time a) = true ->
  0 < Service.duration service <= 1000000000 ->
  clockMinutes (Appointment.time a) + Service.duration service < 1440 ->
  Appointment.staffId a = StaffMember.id staffMember ->
  Appointment.date a = date ->
  Appointment.status a <> cancelled ->
  Appointment.endTime a
    = Some (supabaseHelpers.calculateEndTime tza tzaLocal now
              (Appointment.time a) (Service.duration service)) ->
  let stored :=
    operations.createAppointment (transformDatabaseToUI.appointment a)
      appointments in
  isTimeSlotAvailable (Appointment.time a) (Service.duration service) stored
    (StaffMember.id staffMember) date = false
  /\ ~ In (Appointment.time a)
         (generateAvailableTimeSlots timezoneOffset weekdayOf date
            staffMember service stored).
Proof.
  intros Hhost Hct Hd Hday Hstaff Hdate Hstatus Hend stored.
  set (p := Appointment.time a) in *.
  set (d := Service.duration service) in *.
  destruct (timeToMinutes_isClockTime _ Hct) as [_ Hpos].
  assert (Hcalc :
    supabaseHelpers.calculateEndTime tza tzaLocal now p d
    = minutesToTime (Int (clockMinutes p + d))).
  { rewrite calculateEndTime_clock by (assumption || lia).
    now rewrite Z.mod_small by lia. }
  rewrite Hcalc in Hend.
  assert (Hce : isClockTime (minutesToTime (Int (clockMinutes p + d))) = true).
  { unfold isClockTime. now rewrite clockFields_minutesToTime by lia. }
  destruct (transformed_with_endTime a _ Hend Hce Hct) as (Hwf & Heff & _).
  rewrite clockMinutes_minutesToTime in Heff by lia.
  assert (Hblocked :
    isTimeSlotAvailable p d stored (StaffMember.id staffMember) date = false).
  { unfold isTimeSlotAvailable. apply scanAppointments_false_iff.
    exists (transformDatabaseToUI.appointment a). split.
    - subst stored. unfold operations.createAppointment.
      apply in_or_app. right. now left.
    - split.
      + apply concerns_spec. repeat split; assumption.
      + apply overlap_proposed; [exact Hct | lia | exact Hwf |].
        rewrite Heff. unfold rangesOverlap.
        change (Appointment.time (transformDatabaseToUI.appointment a))
          with p. lia. }
  split; [exact Hblocked |].
  intros Hin.
  apply generateAvailableTimeSlots_In in Hin
    as (av & k & _ & _ & _ & _ & _ & _ & _ & _ & _ & Hfree).
  fold d in Hfree. rewrite Hblocked in Hfree. discriminate.
Qed.

(** X15. A booking that runs to midnight or beyond does not close its
    slot.  For a well-formed start time before 24:00 and a duration of at
    most a day that brings the end to 24:00 or later, on a host whose clock
    does not change during the appointment, [calculateEndTime] stores an
    end a day short of the start plus the duration, so at or before the
    start, and adding the appointment leaves the answer of
    [isTimeSlotAvailable] for that start time as it was. *)
Theorem booking_past_midnight_stays_open (proposedDuration : Z)
  (staffId date : string) (appointments : list Appointment.t)
  (a : Appointment.t) :
  steadyHost tza tzaLocal now (clockMinutes (Appointment.time a))
    proposedDuration ->
  isClockTime (Appointment.time a) = true ->
  clockMinutes (Appointment.time a) < 1440 ->
  0 < proposedDuration <= 1440 ->
  1440 <= clockMinutes (Appointment.time a) + proposedDuration ->
  Appointment.endTime a
    = Some (supabaseHelpers.calculateEndTime tza tzaLocal now
              (Appointment.time a) proposedDuration) ->
  clockMinutes
    (supabaseHelpers.calculateEndTime tza tzaLocal now (Appointment.time a)
       proposedDuration)
  = clockMinutes (Appointment.time a) + proposedDuration - 1440
  /\ clockMinutes
       (supabaseHelpers.calculateEndTime tza tzaLocal now
          (Appointment.time a) proposedDuration)
     <= clockMinutes (Appointment.time a)
  /\ isTimeSlotAvailable (Appointment.time a) proposedDuration
       (operations.createAppointment (transformDatabaseToUI.appointment a)
          appointments) staffId date
     = isTimeSlotAvailable (Appointment.time a) proposedDuration appointments
         staffId date.
Proof.
  intros Hhost Hct Hbefore Hd Hlate Hend.
  set (p := Appointment.time a) in *. set (d := proposedDuration) in *.
  destruct (timeToMinutes_isClockTime _ Hct) as [Hp Hpos].
  assert (Hwrap : (clockMinutes p + d) mod 1440 = clockMinutes p + d - 1440).
  { symmetry. apply Z.mod_unique with 1; lia. }
  assert (Hcalc : supabaseHelpers.calculateEndTime tza tzaLocal now p d
                  = minutesToTime (Int (clockMinutes p + d - 1440))).
  { rewrite calculateEndTime_clock, Hwrap by (assumption || lia).
    reflexivity. }
  assert (Hmin : clockMinutes
                   (supabaseHelpers.calculateEndTime tza tzaLocal now p d)
                 = clockMinutes p + d - 1440).
  { rewrite Hcalc. unfold clockMinutes at 1.
    now rewrite timeToMinutes_minutesToTime by lia. }
  split; [exact Hmin |]. split; [lia |].
  rewrite Hcalc in Hend.
  assert (Hce :
    isClockTime (minutesToTime (Int (clockMinutes p + d - 1440))) = true).
  { unfold isClockTime. now rewrite clockFields_minutesToTime by lia. }
  destruct (transformed_with_endTime a _ Hend Hce Hct) as (_ & _ & Hstr).
  unfold isTimeSlotAvailable, operations.createAppointment.
  rewrite scanAppointments_app. cbn [scanAppointments].
  rewrite Hstr.
  change (Appointment.time (transformDatabaseToUI.appointment a)) with p.
  assert (Hfree :
    doTimeRangesOverlap p (getAppointmentEndTime p d) p
      (minutesToTime (Int (clockMinutes p + d - 1440))) = false).
  { unfold doTimeRangesOverlap.
    rewrite Hp, timeToMinutes_minutesToTime by lia. cbn [lt].
    apply andb_false_iff. left. apply Z.ltb_ge. lia. }
  rewrite Hfree, andb_false_r. apply andb_true_r.
Qed.

(** X16. Cancelling an appointment frees its slot: after
    [updateAppointment] has merged [{ status: "cancelled" }] into the
    appointments with that id, [isTimeSlotAvailable] and
    [generateAvailableTimeSlots] answer as if those appointments had been
    removed from the list. *)
Theorem cancelling_frees_the_slot (id : string)
  (appointments : list Appointment.t) :
  let cancelled_ :=
    operations.updateAppointment id handlers.cancelUpdates appointments in
  let removed :=
    List.filter (fun apt => negb (String.eqb (Appointment.id apt) id))
      appointments in
  (forall proposedStartTime serviceDuration staffId date,
     isTimeSlotAvailable proposedStartTime serviceDuration cancelled_
       staffId date
     = isTimeSlotAvailable proposedStartTime serviceDuration removed
         staffId date)
  /\ (forall date staffMember service,
        generateAvailableTimeSlots timezoneOffset weekdayOf date staffMember
          service cancelled_
        = generateAvailableTimeSlots timezoneOffset weekdayOf date staffMember
            service removed).
Proof.
  intros cancelled_ removed.
  assert (Hcheck : forall p d staffId date,
    isTimeSlotAvailable p d cancelled_ staffId date
    = isTimeSlotAvailable p d removed staffId date).
  { intros p d staffId date. apply scan_after_cancel. }
  split; [exact Hcheck |].
  intros date staffMember service.
  apply generateAvailableTimeSlots_ext. intros ts. apply Hcheck.
Qed.

End FlowFacts.

(** X17. An available slot can be booked without creating a double
    booking: if no two appointments of the list overlap for the same staff
    member and date, and [isTimeSlotAvailable] accepts a start time and a
    positive duration, then the list with the new appointment added, from
    that start to the start plus the duration, still has no two overlapping
    appointments. *)
Theorem booking_keeps_noDoubleBooking (proposedStartTime : string)
  (serviceDuration : Z) (appointments : list Appointment.t)
  (staffId date : string) (a : Appointment.t) :
  Forall wellFormedAppointment appointments ->
  wellFormedAppointment a ->
  0 < serviceDuration ->
  noDoubleBooking appointments ->
  isTimeSlotAvailable proposedStartTime serviceDuration appointments
    staffId date = true ->
  Appointment.staffId a = staffId ->
  Appointment.date a = date ->
  Appointment.time a = proposedStartTime ->
  effectiveEnd a = clockMinutes proposedStartTime + serviceDuration ->
  noDoubleBooking (operations.createAppointment a appointments).
Proof.
  intros Hwfl Hwfa Hd Hinv Havail Hstaff Hdate Htime Heff.
  assert (Hp : isClockTime proposedStartTime = true)
    by (rewrite <- Htime; exact (proj1 Hwfa)).
  rewrite List.Forall_forall in Hwfl.
  unfold noDoubleBooking, operations.createAppointment.
  intros i j x y Hij Hi Hj Hsx Hby Hover.
  apply nth_error_snoc in Hi as [Hi | [Hi ->]];
    apply nth_error_snoc in Hj as [Hj | [Hj ->]].
  - exact (Hinv i j x y Hij Hi Hj Hsx Hby Hover).
  - apply List.nth_error_In in Hi.
    destruct Hby as (Hs & Hdt & _).
    rewrite Htime, Heff in Hover. apply rangesOverlap_sym in Hover.
    apply (available_no_overlap proposedStartTime serviceDuration
             appointments staffId date x); auto.
    repeat split; congruence.
  - apply List.nth_error_In in Hj.
    rewrite Hstaff, Hdate in Hby. rewrite Htime, Heff in Hover.
    apply (available_no_overlap proposedStartTime serviceDuration
             appointments staffId date y); auto.
  - lia.
Qed.

(** In a list without double booking, the range of an appointment is free
    once the appointment itself is left out. *)
Lemma excluding_leaves_room (appointments : list Appointment.t)
  (a : Appointment.t) (d : Z) :
  Forall wellFormedAppointment appointments ->
  noDoubleBooking appointments ->
  In a appointments ->
  Appointment.status a <> cancelled ->
  0 < d ->
  effectiveEnd a = clockMinutes (Appointment.time a) + d ->
  isTimeSlotAvailable (Appointment.time a) d
    (handlers.excluding a appointments)
    (Appointment.staffId a) (Appointment.date a) = true.
Proof.
  intros Hwfl Hinv Hin Hstatus Hd Heff.
  rewrite List.Forall_forall in Hwfl.
  unfold isTimeSlotAvailable.
  apply scanAppointments_true_iff. intros b Hb.
  unfold handlers.excluding in Hb. apply List.filter_In in Hb as [Hbin Hid].
  apply not_true_is_false. intros Hhit.
  apply andb_true_iff in Hhit as [Hc Ho].
  apply concerns_spec in Hc.
  apply overlap_proposed in Ho;
    [| exact (proj1 (Hwfl a Hin)) | exact Hd | exact (Hwfl b Hbin)].
  rewrite <- Heff in Ho.
  destruct (List.In_nth_error _ _ Hin) as [i Hi].
  destruct (List.In_nth_error _ _ Hbin) as [j Hj].
  apply (Hinv i j a b); auto.
  intros ->. rewrite Hi in Hj. injection Hj as <-.
  rewrite String.eqb_refl in Hid. discriminate.
Qed.

(** X18. Saving an appointment again at its own date and time is accepted
    whenever the list has no double booking: the availability test of
    [handleEditAppointment] leaves the edited appointment out, and nothing
    else overlaps it. *)
Theorem resaving_in_place_is_accepted (appointments : list Appointment.t)
  (a : Appointment.t) (serviceId : string) (services : list Service.t) :
  Forall wellFormedAppointment appointments ->
  noDoubleBooking appointments ->
  In a appointments ->
  Appointment.status a <> cancelled ->
  0 < handlers.durationOr60 services serviceId ->
  effectiveEnd a
    = clockMinutes (Appointment.time a)
      + handlers.durationOr60 services serviceId ->
  handlers.editIsAvailable (Appointment.date a) (Appointment.time a) a
    serviceId services appointments = true.
Proof.
  intros Hwfl Hinv Hin Hstatus Hd Heff.
  unfold handlers.editIsAvailable. now apply excluding_leaves_room.
Qed.

(** X19. An appointment loaded without an end time gets its own start as
    end from [transformDatabaseToUI.appointment], so the engine sees an
    empty range: it blocks a proposal only when its start lies strictly
    inside the proposed range, and a proposal at the very same start time is
    accepted - whereas the same appointment given to the engine as it is
    would block that start for an hour. *)
Theorem transformed_without_endTime (a : Appointment.t)
  (proposedStartTime : string) (serviceDuration : Z) (staffId date : string) :
  truthy (Appointment.endTime a) = false ->
  isClockTime (Appointment.time a) = true ->
  isClockTime proposedStartTime = true ->
  0 < serviceDuration ->
  (isTimeSlotAvailable proposedStartTime serviceDuration
     [transformDatabaseToUI.appointment a] staffId date = false
   <-> blocksFor staffId date a
       /\ clockMinutes proposedStartTime < clockMinutes (Appointment.time a)
          < clockMinutes proposedStartTime + serviceDuration)
  /\ isTimeSlotAvailable (Appointment.time a) serviceDuration
       [transformDatabaseToUI.appointment a]
       (Appointment.staffId a) (Appointment.date a) = true
  /\ (Appointment.status a <> cancelled ->
      isTimeSlotAvailable (Appointment.time a) serviceDuration [a]
        (Appointment.staffId a) (Appointment.date a) = false).
Proof.
  intros Hfalsy Hct Hp Hd.
  set (a' := transformDatabaseToUI.appointment a).
  assert (Hend : Appointment.endTime a' = Some (Appointment.time a)).
  { subst a'. unfold transformDatabaseToUI.appointment.
    cbn [Appointment.endTime]. now rewrite falsy_endTime. }
  assert (Hwf : wellFormedAppointment a').
  { split; [exact Hct |]. rewrite Hend. intros e [= <-]. exact Hct. }
  assert (Heff : effectiveEnd a' = clockMinutes (Appointment.time a)).
  { unfold effectiveEnd. now rewrite Hend. }
  assert (Hiff : forall p sid dt, isClockTime p = true ->
    isTimeSlotAvailable p serviceDuration [a'] sid dt = false
    <-> blocksFor sid dt a
        /\ clockMinutes p < clockMinutes (Appointment.time a)
           < clockMinutes p + serviceDuration).
  { intros p sid dt Hcp. unfold isTimeSlotAvailable.
    rewrite scanAppointments_false_iff. split.
    - intros (b & [<- | []] & Hc & Ho).
      apply concerns_spec in Hc. apply overlap_proposed in Ho; auto.
      rewrite Heff in Ho. unfold rangesOverlap in Ho.
      change (Appointment.time a') with (Appointment.time a) in Ho.
      split; [exact Hc | lia].
    - intros [Hb Hin]. exists a'. split; [now left |]. split.
      + apply concerns_spec. exact Hb.
      + apply overlap_proposed; auto. rewrite Heff. unfold rangesOverlap.
        change (Appointment.time a') with (Appointment.time a). lia. }
  split; [apply Hiff; exact Hp |]. split.
  - apply not_false_iff_true. rewrite (Hiff _ _ _ Hct). lia.
  - intros Hstatus. unfold isTimeSlotAvailable.
    apply scanAppointments_false_iff. exists a. split; [now left |]. split.
    + apply concerns_spec. repeat split. exact Hstatus.
    + destruct (timeToMinutes_isClockTime _ Hct) as [Ht Hpos].
      unfold doTimeRangesOverlap, appointmentEndTime.
      rewrite falsy_endTime by exact Hfalsy.
      rewrite !getAppointmentEndTime_minutes by (assumption || lia).
      rewrite Ht. cbn [lt]. apply andb_true_iff.
      split; apply Z.ltb_lt; lia.
Qed.

(** X20. The state update after an edit keeps the old end time:
    [handleEditAppointment] sends date, time and notes, so the merged
    appointment has the new start and the end it had before.  When an
    appointment is moved to a time at or after its old end, it therefore
    blocks no start time at or after its new time: the answer is the one
    for the list without it. *)
Theorem edit_keeps_old_endTime (id newDate newTime : string)
  (appointments : list Appointment.t) (proposedStartTime : string)
  (serviceDuration : Z) (staffId date : string) :
  isClockTime proposedStartTime = true ->
  isClockTime newTime = true ->
  clockMinutes newTime <= clockMinutes proposedStartTime ->
  (forall a, In a appointments -> Appointment.id a = id ->
     exists e, Appointment.endTime a = Some e /\ isClockTime e = true
               /\ clockMinutes e <= clockMinutes newTime) ->
  (forall a,
     Appointment.endTime
       (operations.mergeUpdates a (handlers.editUpdates newDate newTime))
     = Appointment.endTime a
     /\ Appointment.time
          (operations.mergeUpdates a (handlers.editUpdates newDate newTime))
        = newTime)
  /\ isTimeSlotAvailable proposedStartTime serviceDuration
       (operations.updateAppointment id
          (handlers.editUpdates newDate newTime) appointments) staffId date
     = isTimeSlotAvailable proposedStartTime serviceDuration
         (List.filter (fun apt => negb (String.eqb (Appointment.id apt) id))
            appointments) staffId date.
Proof.
  intros Hp Hnew Hlater Hends. split; [intros a; split; reflexivity |].
  destruct (timeToMinutes_isClockTime _ Hp) as [Ep _].
  unfold isTimeSlotAvailable.
  induction appointments as [| a l IH]; [reflexivity |].
  cbn [operations.updateAppointment map List.filter].
  fold (operations.updateAppointment id
          (handlers.editUpdates newDate newTime) l).
  assert (IH' := IH (fun b Hb => Hends b (or_intror Hb))).
  destruct (String.eqb (Appointment.id a) id) eqn:Hid;
    cbn [negb scanAppointments]; [| now rewrite IH'].
  apply String.eqb_eq in Hid.
  destruct (Hends a (or_introl eq_refl) Hid) as (e & He & Hce & Hle).
  destruct (timeToMinutes_isClockTime _ Hce) as [Ee _].
  assert (Hfree :
    doTimeRangesOverlap proposedStartTime
      (getAppointmentEndTime proposedStartTime serviceDuration)
      (Appointment.time
         (operations.mergeUpdates a (handlers.editUpdates newDate newTime)))
      (appointmentEndTime
         (operations.mergeUpdates a (handlers.editUpdates newDate newTime)))
    = false).
  { unfold appointmentEndTime, operations.mergeUpdates, handlers.editUpdates.
    cbn. rewrite He, isClockTime_truthy by exact Hce.
    unfold doTimeRangesOverlap. rewrite Ep, Ee. cbn [lt].
    apply andb_false_iff. left. apply Z.ltb_ge. lia. }
  rewrite Hfree, andb_false_r. exact IH'.
Qed.

(** X21. Cancelled appointments still count in the dashboard's number of
    today's appointments: cancelling leaves [todayAppointments] as it
    was. *)
Theorem todayAppointments_counts_cancelled (today id : string)
  (appointments : list Appointment.t) :
  handlers.todayAppointments today
    (operations.updateAppointment id handlers.cancelUpdates appointments)
  = handlers.todayAppointments today appointments.
Proof.
  unfold handlers.todayAppointments.
  induction appointments as [| a l IH]; [reflexivity |].
  cbn [operations.updateAppointment map List.filter].
  fold (operations.updateAppointment id handlers.cancelUpdates l).
  assert (Hdate :
    Appointment.date (operations.mergeUpdates a handlers.cancelUpdates)
    = Appointment.date a) by reflexivity.
  destruct (String.eqb (Appointment.id a) id); [rewrite Hdate |];
    destruct (String.eqb (Appointment.date a) today);
    cbn [length]; now rewrite IH.
Qed.

(** X22. The status written to the database reads back as it was: for
    every status other than "scheduled", [statusFromDb (statusToDb s)] is
    [s]; a status is "cancelled" after either conversion exactly when it was
    before; and the interface never sees "scheduled". *)
Theorem status_round_trip (status : string) :
  status <> "scheduled" ->
  supabaseHelpers.statusFromDb (supabaseHelpers.statusToDb status) = status
  /\ (supabaseHelpers.statusToDb status = "cancelled"
      <-> status = "cancelled")
  /\ (forall stored,
        supabaseHelpers.statusFromDb stored = "cancelled"
        <-> stored = "cancelled")
  /\ (forall stored, supabaseHelpers.statusFromDb stored <> "scheduled").
Proof.
  intros Hns.
  unfold supabaseHelpers.statusFromDb, supabaseHelpers.statusToDb.
  split; [| split; [| split]].
  - destruct (String.eqb_spec status "confirmed") as [-> | _];
      [reflexivity |].
    destruct (String.eqb_spec status "scheduled"); [contradiction | reflexivity].
  - destruct (String.eqb_spec status "confirmed") as [-> | _];
      [split; discriminate | reflexivity].
  - intros stored.
    destruct (String.eqb_spec stored "scheduled") as [-> | _];
      [split; discriminate | reflexivity].
  - intros stored.
    destruct (String.eqb_spec stored "scheduled") as [-> | Hne];
      [discriminate | exact Hne].
Qed.



(** ** Instances of the further properties on the sample host *)

Lemma noDoubleBooking_singleton (a : Appointment.t) : noDoubleBooking [a].
Proof.
  intros i j x y Hij Hi Hj _ _ _.
  destruct i as [| i]; destruct j as [| j]; try lia.
  - destruct j; discriminate Hj.
  - destruct i; discriminate Hi.
  - destruct i; discriminate Hi.
Qed.

Lemma sampleSteadyHost (startMinute duration : Z) :
  steadyHost SampleBooking.tza SampleBooking.tza SampleBooking.now
    startMinute duration.
Proof.
  unfold steadyHost, SampleBooking.tza, SampleBooking.now. cbv zeta.
  repeat split; lia.
Qed.

Lemma offered_slot_passes_final_check_witness :
  isTimeSlotAvailable "09:00" 60
    [SampleHost.booking "10:00" (Some "11:00") confirmed]
    "staff-1" "2025-07-14" = true.
Proof.
  apply (offered_slot_passes_final_check SampleHost.timezoneOffset
           SampleHost.weekdayOf "2025-07-14"
           (SampleHost.stylist SampleHost.nineToFive) (SampleHost.haircut 60)
           [SampleHost.booking "10:00" (Some "11:00") confirmed] "09:00").
  vm_compute. tauto.
Defined.

Lemma generateAvailableTimeSlots_antitone_witness :
  In "11:00"
    (SampleHost.slots "2025-07-14"
       (SampleHost.stylist SampleHost.nineToFive) (SampleHost.haircut 60)
       [SampleHost.booking "10:00" (Some "11:00") confirmed])
  /\ In "11:00"
       (SampleHost.slots "2025-07-14"
          (SampleHost.stylist SampleHost.nineToFive) (SampleHost.haircut 60)
          []).
Proof.
  apply (generateAvailableTimeSlots_antitone SampleHost.timezoneOffset
           SampleHost.weekdayOf "2025-07-14"
           (SampleHost.stylist SampleHost.nineToFive) (SampleHost.haircut 60)
           [SampleHost.booking "10:00" (Some "11:00") confirmed]
           [SampleHost.booking "10:00" (Some "11:00") confirmed;
            SampleHost.booking "12:00" (Some "13:00") cancelled] "11:00").
  - intros a [<- | []]. now left.
  - vm_compute. tauto.
Defined.

Lemma generateAvailableTimeSlots_exactly_witness :
  In "16:00"
    (SampleHost.slots "2025-07-14"
       (SampleHost.stylist SampleHost.nineToFive) (SampleHost.haircut 60) [])
  <->
  exists k : nat,
    let minute := clockMinutes "09:00" + 30 * Z.of_nat k in
    "16:00" = minutesToTime (Int minute)
    /\ minute < clockMinutes "17:00"
    /\ minute + 60 <= clockMinutes "17:00"
    /\ isTimeSlotAvailable "16:00" 60 [] "staff-1" "2025-07-14" = true.
Proof.
  apply (generateAvailableTimeSlots_exactly SampleHost.timezoneOffset
           SampleHost.weekdayOf "2025-07-14"
           (SampleHost.stylist SampleHost.nineToFive) (SampleHost.haircut 60)
           [] SampleHost.nineToFive "16:00").
  - unfold SampleHost.timezoneOffset. lia.
  - reflexivity.
  - reflexivity.
  - reflexivity.
  - reflexivity.
  - cbn. lia.
Defined.

Lemma generateAvailableTimeSlots_no_room_witness :
  SampleHost.slots "2025-07-14" (SampleHost.stylist SampleHost.nineToFive)
    (SampleHost.haircut 600) [] = [].
Proof.
  apply (generateAvailableTimeSlots_no_room SampleHost.timezoneOffset
           SampleHost.weekdayOf "2025-07-14"
           (SampleHost.stylist SampleHost.nineToFive) (SampleHost.haircut 600)
           [] SampleHost.nineToFive).
  - reflexivity.
  - right. vm_compute. reflexivity.
Defined.

Lemma generateAvailableTimeSlots_invalid_window_witness :
  SampleHost.slots "2025-07-14"
    (SampleHost.stylist (DayAvailability.make "09:00" "25:00" true))
    (SampleHost.haircut 60) [] = [].
Proof.
  apply (generateAvailableTimeSlots_invalid_window SampleHost.timezoneOffset
           SampleHost.weekdayOf "2025-07-14"
           (SampleHost.stylist (DayAvailability.make "09:00" "25:00" true))
           (SampleHost.haircut 60) []
           (DayAvailability.make "09:00" "25:00" true)).
  - reflexivity.
  - reflexivity.
  - reflexivity.
  - right. reflexivity.
Defined.

Lemma engine_ignores_list_order_witness :
  (forall proposedStartTime serviceDuration staffId date',
     isTimeSlotAvailable proposedStartTime serviceDuration
       [SampleHost.booking "10:00" (Some "11:00") confirmed;
        SampleHost.booking "13:00" (Some "14:00") confirmed] staffId date'
     = isTimeSlotAvailable proposedStartTime serviceDuration
         [SampleHost.booking "13:00" (Some "14:00") confirmed;
          SampleHost.booking "10:00" (Some "11:00") confirmed;
          SampleHost.booking "13:00" (Some "14:00") confirmed]
         staffId date')
  /\ SampleHost.slots "2025-07-14"
       (SampleHost.stylist SampleHost.nineToFive) (SampleHost.haircut 60)
       [SampleHost.booking "10:00" (Some "11:00") confirmed;
        SampleHost.booking "13:00" (Some "14:00") confirmed]
     = SampleHost.slots "2025-07-14"
         (SampleHost.stylist SampleHost.nineToFive) (SampleHost.haircut 60)
         [SampleHost.booking "13:00" (Some "14:00") confirmed;
          SampleHost.booking "10:00" (Some "11:00") confirmed;
          SampleHost.booking "13:00" (Some "14:00") confirmed].
Proof.
  apply (engine_ignores_list_order SampleHost.timezoneOffset
           SampleHost.weekdayOf "2025-07-14"
           (SampleHost.stylist SampleHost.nineToFive) (SampleHost.haircut 60)).
  intros a. simpl. tauto.
Defined.

Lemma calculateEndTime_wraps_witness :
  SampleBooking.endOf "23:30" 60
  = minutesToTime (Int ((clockMinutes "23:30" + 60) mod 1440))
  /\ isTimeOfDay (SampleBooking.endOf "23:30" 60) = true
  /\ clockMinutes (SampleBooking.endOf "23:30" 60)
     = (clockMinutes "23:30" + 60) mod 1440.
Proof.
  apply (calculateEndTime_wraps SampleBooking.tza SampleBooking.tza
           SampleBooking.now
           "23:30" 60).
  - apply sampleSteadyHost.
  - reflexivity.
  - lia.
Defined.

(** Across a clock change the stored end is not the start plus the
    duration on the clock: an hour from 01:30 ends at 03:30 on the day the
    clock skips from 02:00 to 03:00, while later that day an hour from
    10:00 ends at 11:00. *)
Example calculateEndTime_across_clock_change :
  SampleClockChange.endOf "01:30" 60 = "03:30"
  /\ getAppointmentEndTime "01:30" 60 = "02:30"
  /\ ~ steadyHost SampleClockChange.tza SampleClockChange.tzaLocal
        SampleClockChange.now (clockMinutes "01:30") 60
  /\ steadyHost SampleClockChange.tza SampleClockChange.tzaLocal
       SampleClockChange.now (clockMinutes "10:00") 60
  /\ SampleClockChange.endOf "10:00" 60 = "11:00".
Proof.
  split; [reflexivity |]. split; [reflexivity |]. split.
  - intros (_ & _ & _ & Hend). vm_compute in Hend. discriminate Hend.
  - split; [| reflexivity].
    unfold steadyHost. cbv zeta. repeat split; vm_compute; congruence.
Qed.

Lemma calculateEndTime_agrees_before_midnight_witness :
  SampleBooking.endOf "16:00" 60 = getAppointmentEndTime "16:00" 60
  <-> clockMinutes "16:00" + 60 < 1440.
Proof.
  apply (calculateEndTime_agrees_before_midnight SampleBooking.tza
           SampleBooking.tza SampleBooking.now "16:00" 60).
  - apply sampleSteadyHost.
  - reflexivity.
  - lia.
  - vm_compute. discriminate.
Defined.

Lemma calculateEndTime_without_colon_witness :
  SampleBooking.endOf "0930" 60 = "Inval".
Proof.
  apply (calculateEndTime_without_colon SampleBooking.tza SampleBooking.tza
           SampleBooking.now "0930" 60).
  reflexivity.
Defined.

Lemma booked_slot_is_blocked_witness :
  let stored :=
    operations.createAppointment
      (transformDatabaseToUI.appointment (SampleBooking.booked "a2" "09:00" 60))
      [] in
  isTimeSlotAvailable "09:00" 60 stored "staff-1" "2025-07-14" = false
  /\ ~ In "09:00"
         (SampleHost.slots "2025-07-14"
            (SampleHost.stylist SampleHost.nineToFive)
            (SampleHost.haircut 60) stored).
Proof.
  apply (booked_slot_is_blocked SampleHost.timezoneOffset
           SampleHost.weekdayOf SampleBooking.tza SampleBooking.tza
           SampleBooking.now "2025-07-14"
           (SampleHost.stylist SampleHost.nineToFive) (SampleHost.haircut 60)
           [] (SampleBooking.booked "a2" "09:00" 60)).
  - apply sampleSteadyHost.
  - reflexivity.
  - cbn. lia.
  - vm_compute. reflexivity.
  - reflexivity.
  - reflexivity.
  - discriminate.
  - reflexivity.
Defined.

Lemma booking_past_midnight_stays_open_witness :
  clockMinutes (SampleBooking.endOf "23:00" 60)
  = clockMinutes "23:00" + 60 - 1440
  /\ clockMinutes (SampleBooking.endOf "23:00" 60) <= clockMinutes "23:00"
  /\ isTimeSlotAvailable "23:00" 60
       (operations.createAppointment
          (transformDatabaseToUI.appointment
             (SampleBooking.booked "a3" "23:00" 60)) [])
       "staff-1" "2025-07-14"
     = isTimeSlotAvailable "23:00" 60 [] "staff-1" "2025-07-14".
Proof.
  apply (booking_past_midnight_stays_open SampleBooking.tza
           SampleBooking.tza SampleBooking.now 60 "staff-1" "2025-07-14" []
           (SampleBooking.booked "a3" "23:00" 60)).
  - apply sampleSteadyHost.
  - reflexivity.
  - vm_compute. reflexivity.
  - lia.
  - vm_compute. discriminate.
  - reflexivity.
Defined.

Lemma booking_keeps_noDoubleBooking_witness :
  noDoubleBooking
    (operations.createAppointment
       (Appointment.make "a2" "staff-1" "2025-07-14" "10:00" (Some "11:00")
          confirmed)
       [SampleHost.booking "09:00" (Some "10:00") confirmed]).
Proof.
  apply (booking_keeps_noDoubleBooking "10:00" 60
           [SampleHost.booking "09:00" (Some "10:00") confirmed]
           "staff-1" "2025-07-14").
  - constructor; [| constructor].
    split; [reflexivity | intros e [= <-]; reflexivity].
  - split; [reflexivity | intros e [= <-]; reflexivity].
  - lia.
  - apply noDoubleBooking_singleton.
  - reflexivity.
  - reflexivity.
  - reflexivity.
  - reflexivity.
  - reflexivity.
Defined.

Lemma resaving_in_place_is_accepted_witness :
  handlers.editIsAvailable "2025-07-14" "09:00"
    (SampleHost.booking "09:00" (Some "10:00") confirmed) "cut"
    SampleBooking.services
    [SampleHost.booking "09:00" (Some "10:00") confirmed] = true.
Proof.
  apply (resaving_in_place_is_accepted
           [SampleHost.booking "09:00" (Some "10:00") confirmed]
           (SampleHost.booking "09:00" (Some "10:00") confirmed) "cut"
           SampleBooking.services).
  - constructor; [| constructor].
    split; [reflexivity | intros e [= <-]; reflexivity].
  - apply noDoubleBooking_singleton.
  - now left.
  - discriminate.
  - vm_compute. reflexivity.
  - reflexivity.
Defined.

Lemma transformed_without_endTime_witness :
  isTimeSlotAvailable "09:00" 60
    [transformDatabaseToUI.appointment
       (SampleHost.booking "09:00" None confirmed)]
    "staff-1" "2025-07-14" = true
  /\ isTimeSlotAvailable "09:00" 60
       [SampleHost.booking "09:00" None confirmed]
       "staff-1" "2025-07-14" = false.
Proof.
  destruct (transformed_without_endTime
              (SampleHost.booking "09:00" None confirmed) "08:30" 60
              "staff-1" "2025-07-14")
    as (_ & Hsame & Hraw); try reflexivity.
  split; [exact Hsame | apply Hraw; discriminate].
Defined.

Lemma edit_keeps_old_endTime_witness :
  isTimeSlotAvailable "14:00" 60
    (operations.updateAppointment "appointment-1"
       (handlers.editUpdates "2025-07-14" "14:00")
       [SampleHost.booking "09:00" (Some "10:00") confirmed])
    "staff-1" "2025-07-14"
  = isTimeSlotAvailable "14:00" 60
      (List.filter
         (fun apt => negb (String.eqb (Appointment.id apt) "appointment-1"))
         [SampleHost.booking "09:00" (Some "10:00") confirmed])
      "staff-1" "2025-07-14".
Proof.
  refine (proj2 (edit_keeps_old_endTime "appointment-1" "2025-07-14" "14:00"
           [SampleHost.booking "09:00" (Some "10:00") confirmed]
           "14:00" 60 "staff-1" "2025-07-14" _ _ _ _)).
  - reflexivity.
  - reflexivity.
  - vm_compute. discriminate.
  - intros a [<- | []] _. exists "10:00".
    split; [reflexivity |]. split; [reflexivity |].
    vm_compute. discriminate.
Defined.

Lemma status_round_trip_witness :
  supabaseHelpers.statusFromDb (supabaseHelpers.statusToDb "confirmed")
  = "confirmed".
Proof.
  refine (proj1 (status_round_trip "confirmed" _)). discriminate.
Defined.

